(** * DiscordChatAIBot: the context and prompt pipeline of [app.py]

    A shallow embedding of the parts of [app.py] that decide what the bot
    stores, what it sends to the completion API and what it posts back:
    [BotDatabase] (the SQLite tables [users] and [messages]) and the three
    methods [_handle_message], [_generate_response] and [_build_prompt] of
    [DiscordChatBot].

    Conventions of the embedding.
    - Python [int] is [Z]; [len] of a list is a [nat].
    - Python [str] is [string]; a character is a code point below 256.
    - The [users] table is a finite map keyed by [user_id] (its primary
      key); the [messages] table is the list of its rows in insertion order.
    - A method that mutates [self] or talks to the outside is a computation
      in the monad [M]: it threads the bot's state and either returns or
      raises.  A mutation made before an exception is raised stays made, as
      in Python.
    - Sending a text to the channel of a message appends it to the texts
      sent; it raises only for a message without a channel.
    - What the outside world answers during one call of [on_message] is an
      [env]: the clock readings, the reply of the completion API, and which
      of the database calls fail.  These are the failures the source itself
      catches and logs ("Failed to log incoming message to DB", "Failed to
      fetch context from DB", "Failed to call OpenAI API", "Failed to log
      bot response to DB").
    - Calls to [logging] are not modelled. *)

From Stdlib Require Import Ascii.
From stdpp Require Import base gmap strings list pretty sorting.

Local Open Scope Z_scope.

(** ** Python string primitives used by [app.py] *)

Module Py.

(** The line feed, written ["\n"] in the source. *)
Definition LF : string := String (ascii_of_nat 10) EmptyString.

(** [sep.join(lines)] *)
Fixpoint join (sep : string) (lines : list string) : string :=
  match lines with
  | [] => ""
  | [x] => x
  | x :: rest => x +:+ sep +:+ join sep rest
  end.

(** [str.isspace] on the code points below 256: TAB to CR, FS to US,
    SPACE, NEL and NBSP. *)
Definition isspace (c : ascii) : bool :=
  let n := nat_of_ascii c in
  ((9 <=? n)%nat && (n <=? 13)%nat)
  || ((28 <=? n)%nat && (n <=? 32)%nat)
  || (n =? 133)%nat || (n =? 160)%nat.

Fixpoint lstrip (s : string) : string :=
  match s with
  | EmptyString => EmptyString
  | String c s' => if isspace c then lstrip s' else s
  end.

Fixpoint rstrip (s : string) : string :=
  match s with
  | EmptyString => EmptyString
  | String c s' =>
      match rstrip s' with
      | EmptyString => if isspace c then EmptyString else String c EmptyString
      | r => String c r
      end
  end.

(** [s.strip()] *)
Definition strip (s : string) : string := rstrip (lstrip s).

(** [s.replace(old, new)] for a non-empty [old]: one scan from the left;
    where [old] starts at the current position it is consumed and [new]
    is emitted, otherwise one character is copied.  [skip] counts the
    characters of a matched [old] still to be consumed. *)
Fixpoint replace_from (old new : string) (skip : nat) (s : string) : string :=
  match s with
  | EmptyString => EmptyString
  | String c s' =>
      match skip with
      | S k => replace_from old new k s'
      | O =>
          if String.prefix old s
          then new +:+ replace_from old new (String.length old - 1) s'
          else String c (replace_from old new 0 s')
      end
  end.

(** [s.replace("", new)] puts [new] before every character and at the end. *)
Fixpoint replace_empty (new s : string) : string :=
  match s with
  | EmptyString => new
  | String c s' => new +:+ String c (replace_empty new s')
  end.

Definition replace (s old new : string) : string :=
  match old with
  | EmptyString => replace_empty new s
  | _ => replace_from old new 0 s
  end.

(** [sub in s] *)
Fixpoint contains (sub s : string) : bool :=
  String.prefix sub s
  || match s with
     | EmptyString => false
     | String _ s' => contains sub s'
     end.

(** [l[-n:]] for [n > 0] *)
Definition last_n {A} (n : nat) (l : list A) : list A :=
  drop (length l - n) l.

End Py.

(** ** [class BotDatabase] *)

Module BotDatabase.

(** A row of [users]; the key [user_id] is the key of the map. *)
Record users_row := {
  username : string;
  discriminator : option string;
  is_bot : bool;
  first_seen_at : Z;
  last_seen_at : Z;
  message_count : Z;
  mention_count : Z
}.

(** A row of [messages]. *)
Record messages_row := {
  msg_id : Z;
  msg_ts : Z;
  msg_user_id : option Z;
  msg_username : string;
  msg_guild_id : option Z;
  msg_channel_id : option Z;
  msg_message_id : option Z;
  msg_is_bot : bool;
  msg_content : string
}.

Record database := {
  users : gmap Z users_row;
  messages : list messages_row
}.

Definition empty : database := {| users := ∅; messages := [] |}.

(** [INSERT INTO users ... ON CONFLICT(user_id) DO UPDATE SET ...] *)
Definition upsert_user (user_id : Z) (username' : string)
    (discriminator' : option string) (is_bot' : bool) (now_ts : Z)
    (increment_message increment_mention : bool) (d : database) : database :=
  let row :=
    match users d !! user_id with
    | None =>
        {| username := username';
           discriminator := discriminator';
           is_bot := is_bot';
           first_seen_at := now_ts;
           last_seen_at := now_ts;
           message_count := Z.b2z increment_message;
           mention_count := Z.b2z increment_mention |}
    | Some old =>
        {| username := username';
           discriminator := discriminator';
           is_bot := is_bot';
           first_seen_at := first_seen_at old;
           last_seen_at := now_ts;
           message_count := message_count old + Z.b2z increment_message;
           mention_count := mention_count old + Z.b2z increment_mention |}
    end in
  {| users := <[user_id := row]> (users d); messages := messages d |}.

(** [INSERT INTO messages ...]; no row is ever deleted, so the
    autoincremented [id] is the number of rows so far plus one. *)
Definition log_message (ts : Z) (user_id : option Z) (username' : string)
    (guild_id channel_id message_id : option Z) (is_bot' : bool)
    (content : string) (d : database) : database :=
  let row :=
    {| msg_id := Z.of_nat (length (messages d)) + 1;
       msg_ts := ts;
       msg_user_id := user_id;
       msg_username := username';
       msg_guild_id := guild_id;
       msg_channel_id := channel_id;
       msg_message_id := message_id;
       msg_is_bot := is_bot';
       msg_content := content |} in
  {| users := users d; messages := messages d ++ [row] |}.

(** [WHERE channel_id = ?]: a row whose [channel_id] is NULL matches no
    channel. *)
Definition in_channel (channel_id : Z) (r : messages_row) : bool :=
  match msg_channel_id r with
  | Some c => c =? channel_id
  | None => false
  end.

(** [ORDER BY ts DESC]: [newer_first] holds from each row to the rows after
    it.  Rows are taken in insertion order and each is put
    in front of the rows that are not newer, so among rows of one [ts]
    the one inserted last comes first: the order in which a backward scan
    of the index [idx_messages_channel_ts] yields them. *)
Definition newer_first (a b : messages_row) : Prop := msg_ts b <= msg_ts a.

Fixpoint insert_desc (r : messages_row) (l : list messages_row) : list messages_row :=
  match l with
  | [] => [r]
  | x :: l' => if msg_ts x <=? msg_ts r then r :: l else x :: insert_desc r l'
  end.

Definition order_by_ts_desc (rows : list messages_row) : list messages_row :=
  foldl (fun acc r => insert_desc r acc) [] rows.

(** [LIMIT ?]: SQLite puts no bound on the rows when the limit is negative. *)
Definition sql_limit (limit : Z) (rows : list messages_row) : list messages_row :=
  if limit <? 0 then rows else take (Z.to_nat limit) rows.

(** The rows fetched by the [SELECT] of [get_recent_messages_for_channel]. *)
Definition select_recent (channel_id limit : Z) (d : database) : list messages_row :=
  sql_limit limit (order_by_ts_desc (filter (fun r => in_channel channel_id r = true) (messages d))).

(** [f"{prefix}: {row['content']}"] *)
Definition render_line (r : messages_row) : string :=
  let prefix := if msg_is_bot r then "Bot" else msg_username r in
  prefix +:+ ": " +:+ msg_content r.

Definition get_recent_messages_for_channel (channel_id limit : Z) (d : database) : list string :=
  let rows := select_recent channel_id limit d in
  map render_line (reverse rows).

End BotDatabase.

(** ** What [app.py] sees of [discord] and [openai] *)

(** [discord.User]: the attributes the bot reads. *)
Record User := {
  uid : Z;
  name : string;
  user_discriminator : option string;
  bot : bool
}.

(** [==] on users compares their ids. *)
Definition user_eq (a b : User) : bool := uid a =? uid b.

(** [discord.Message].  [mentions_bot] is the value of
    [self.bot.user.mentioned_in(message)]. *)
Record Message := {
  mid : Z;
  author : User;
  content : string;
  channel : option Z;
  guild : option Z;
  mentions_bot : bool
}.

(** The arguments of [chat.completions.create]. *)
Record chat_request := {
  model : string;
  system_content : string;
  user_content : string;
  max_tokens : Z
}.

(** What the completion API does with a request: the call raises, or it
    returns a response whose first choice has the given [content] ([None]
    when that attribute is [None]). *)
Inductive api_outcome :=
  | ApiRaises
  | ApiReplies (content : option string).

(** The outside world during one call of [on_message]. *)
Record env := {
  time_in : Z;                  (* [int(time.time())] in [_handle_message] *)
  upsert_in_fails : bool;       (* [upsert_user] of the author raises *)
  log_in_fails : bool;          (* [log_message] of the incoming message raises *)
  fetch_fails : bool;           (* [get_recent_messages_for_channel] raises *)
  openai_model : option string; (* [os.environ.get("OPENAI_MODEL")] *)
  completion : api_outcome;
  time_out : Z;                 (* [int(time.time())] in [_generate_response] *)
  upsert_out_fails : bool;      (* [upsert_user] of the bot raises *)
  log_out_fails : bool          (* [log_message] of the reply raises *)
}.

(** ** [class DiscordChatBot] *)

(** The attributes of [self] that the handlers read or write, together with
    what has left the process: the texts sent to channels and the requests
    made to the completion API, oldest first. *)
Record bot_state := {
  bot_user : option User;
  bot_personality : string;
  global_message_memory : list string;
  db : BotDatabase.database;
  sent : list (Z * string);
  requests : list chat_request
}.

Definition set_memory (f : list string -> list string) (s : bot_state) : bot_state :=
  {| bot_user := bot_user s;
     bot_personality := bot_personality s;
     global_message_memory := f (global_message_memory s);
     db := db s;
     sent := sent s;
     requests := requests s |}.

Definition set_db (f : BotDatabase.database -> BotDatabase.database) (s : bot_state) : bot_state :=
  {| bot_user := bot_user s;
     bot_personality := bot_personality s;
     global_message_memory := global_message_memory s;
     db := f (db s);
     sent := sent s;
     requests := requests s |}.

Definition add_sent (c : Z) (text : string) (s : bot_state) : bot_state :=
  {| bot_user := bot_user s;
     bot_personality := bot_personality s;
     global_message_memory := global_message_memory s;
     db := db s;
     sent := sent s ++ [(c, text)];
     requests := requests s |}.

Definition add_request (r : chat_request) (s : bot_state) : bot_state :=
  {| bot_user := bot_user s;
     bot_personality := bot_personality s;
     global_message_memory := global_message_memory s;
     db := db s;
     sent := sent s;
     requests := requests s ++ [r] |}.

(** *** Computations that may raise *)

Inductive exn :=
  | DatabaseError
  | OpenAIError
  | AttributeError.

Inductive outcome (A : Type) :=
  | Returned (a : A)
  | Raised (e : exn).
Arguments Returned {A} a.
Arguments Raised {A} e.

Definition M (A : Type) : Type := bot_state -> outcome A * bot_state.

#[global] Instance M_ret : MRet M := fun A a s => (Returned a, s).

#[global] Instance M_bind : MBind M := fun A B f m s =>
  match m s with
  | (Returned a, s') => f a s'
  | (Raised e, s') => (Raised e, s')
  end.

Definition raise {A} (e : exn) : M A := fun s => (Raised e, s).

(** [try: body except Exception as e: handler] *)
Definition try_except {A} (body : M A) (handler : exn -> M A) : M A := fun s =>
  match body s with
  | (Returned a, s') => (Returned a, s')
  | (Raised e, s') => handler e s'
  end.

Definition get_state : M bot_state := fun s => (Returned s, s).

Definition modify (f : bot_state -> bot_state) : M unit := fun s => (Returned tt, f s).

(** A write to the database: it raises and changes nothing, or it commits. *)
Definition db_write (fails : bool) (f : BotDatabase.database -> BotDatabase.database) : M unit :=
  if fails then raise DatabaseError else modify (set_db f).

(** A read of the database. *)
Definition db_read {A} (fails : bool) (f : BotDatabase.database -> A) : M A :=
  if fails then raise DatabaseError else s ← get_state; mret (f (db s)).

(** [await message.channel.send(text)]; [message.channel] may be [None]. *)
Definition send (ch : option Z) (text : string) : M unit :=
  match ch with
  | None => raise AttributeError
  | Some c => modify (add_sent c text)
  end.

(** [self.openai_client.chat.completions.create(...)] followed by
    [response.choices[0].message.content.strip()]. *)
Definition chat_completions_create (e : env) (r : chat_request) : M string :=
  modify (add_request r);;
  match completion e with
  | ApiRaises => raise OpenAIError
  | ApiReplies None => raise AttributeError
  | ApiReplies (Some text) => mret (Py.strip text)
  end.

(** [self.global_message_memory.append(line)] *)
Definition memory_append (line : string) : M unit :=
  modify (set_memory (fun l => l ++ [line])).

(** [if len(self.global_message_memory) > 100: self.global_message_memory.pop(0)] *)
Definition memory_trim : M unit :=
  s ← get_state;
  if (100 <? length (global_message_memory s))%nat
  then modify (set_memory (drop 1))
  else mret tt.

Definition error_message : string := "Sorry, there was an error processing your request.".

(** *** [_build_prompt] *)

Definition _build_prompt (s : bot_state) (author_name message_content context : string) : string :=
  let memory_length := length (global_message_memory s) in
  if ((memory_length mod 5 =? 0) || (memory_length =? 1))%nat then
    "Previous conversation context:" +:+ Py.LF +:+ context +:+ Py.LF
    +:+ "You are: " +:+ bot_personality s +:+ Py.LF
    +:+ "Respond to " +:+ author_name +:+ " in first person. Stay in character."
  else if (40 <? memory_length)%nat then
    "Previous conversation context:" +:+ Py.LF +:+ context +:+ Py.LF
    +:+ "You are: " +:+ bot_personality s +:+ Py.LF
    +:+ "You will never admit to being an AI. You are currently annoyed. "
    +:+ "Respond to " +:+ author_name +:+ " in first person with a slightly irritated tone."
  else
    "Previous conversation context:" +:+ Py.LF +:+ context +:+ Py.LF
    +:+ "You are: " +:+ bot_personality s +:+ Py.LF
    +:+ "You will never admit to being an AI. Respond to " +:+ author_name +:+ " in first person.".

(** *** [_generate_response] *)

(** Lines 327 to 335: the transcript of the channel from the database, and
    the tail of the memory when that is empty or could not be read. *)
Definition context_lines (e : env) (message : Message) : M (list string) :=
  lines ← try_except
      (match channel message with
       | Some c => db_read (fetch_fails e) (BotDatabase.get_recent_messages_for_channel c 100)
       | None => mret []
       end)
      (fun _ => mret []);
  match lines with
  | [] => s ← get_state; mret (Py.last_n 100 (global_message_memory s))
  | _ => mret lines
  end.

(** Line 338. *)
Definition clean_message (bot_id : Z) (text : string) : string :=
  Py.strip
    (Py.replace
       (Py.replace text ("<@" +:+ pretty bot_id +:+ ">") "")
       ("<@!" +:+ pretty bot_id +:+ ">") "").

Definition _generate_response (e : env) (message : Message) : M unit :=
  lines ← context_lines e message;
  let context := Py.join Py.LF lines in
  s ← get_state;
  me ← match bot_user s with Some u => mret u | None => raise AttributeError end;
  let clean := clean_message (uid me) (content message) in
  let prompt := _build_prompt s (name (author message)) clean context in
  try_except
    (response_text ← chat_completions_create e
        {| model := default "gpt-4o-mini" (openai_model e);
           system_content := prompt;
           user_content := clean;
           max_tokens := 500 |};
     send (channel message) response_text;;
     memory_append ("Bot: " +:+ response_text);;
     try_except
       (let now_ts := time_out e in
        let guild_id := guild message in
        let channel_id := channel message in
        db_write (upsert_out_fails e)
          (BotDatabase.upsert_user (uid me) (name me) (user_discriminator me)
             true now_ts true false);;
        db_write (log_out_fails e)
          (BotDatabase.log_message now_ts (Some (uid me)) (name me)
             guild_id channel_id None true response_text))
       (fun _ => mret tt))
    (fun _ =>
       send (channel message) error_message;;
       memory_append ("Bot: " +:+ error_message)).

(** *** [_handle_message] *)

Definition _handle_message (e : env) (message : Message) : M unit :=
  s ← get_state;
  match bot_user s with
  | None => mret tt
  | Some me =>
      if user_eq (author message) me then mret tt
      else
        let now_ts := time_in e in
        let guild_id := guild message in
        let channel_id := channel message in
        let mentioned := mentions_bot message in
        try_except
          (db_write (upsert_in_fails e)
             (BotDatabase.upsert_user (uid (author message)) (name (author message))
                (user_discriminator (author message)) (bot (author message))
                now_ts true mentioned);;
           db_write (log_in_fails e)
             (BotDatabase.log_message now_ts (Some (uid (author message)))
                (name (author message)) guild_id channel_id (Some (mid message))
                false (content message)))
          (fun _ => mret tt);;
        memory_append (name (author message) +:+ ": " +:+ content message);;
        memory_trim;;
        if mentioned then _generate_response e message else mret tt
  end.

(** The handler run on a sequence of incoming messages, each with what the
    outside world answers while it is handled.  An exception that leaves
    the handler is reported by the event loop and the next message is
    handled in the state reached. *)
Fixpoint run (events : list (env * Message)) (s : bot_state) : bot_state :=
  match events with
  | [] => s
  | (e, m) :: rest => run rest (snd (_handle_message e m s))
  end.

(** ** The tone of an instruction, as the specification names it *)

Inductive tone :=
  | Refreshed
  | Irritated
  | Standard.

(** The rule of the specification: Refreshed when the counter is 1 or a
    multiple of 5, otherwise Irritated above 40, otherwise Standard. *)
Definition select_tone (n : nat) : tone :=
  if ((n =? 1) || (n mod 5 =? 0))%nat then Refreshed
  else if (40 <? n)%nat then Irritated
  else Standard.

(** The directive that closes the instruction of each tone. *)
Definition directive (t : tone) (author_name : string) : string :=
  match t with
  | Refreshed =>
      "Respond to " +:+ author_name +:+ " in first person. Stay in character."
  | Irritated =>
      "You will never admit to being an AI. You are currently annoyed. "
      +:+ "Respond to " +:+ author_name +:+ " in first person with a slightly irritated tone."
  | Standard =>
      "You will never admit to being an AI. Respond to " +:+ author_name +:+ " in first person."
  end.

(** The instruction of a tone: the transcript, the persona, the directive. *)
Definition instruction (t : tone) (personality author_name context : string) : string :=
  "Previous conversation context:" +:+ Py.LF +:+ context +:+ Py.LF
  +:+ "You are: " +:+ personality +:+ Py.LF
  +:+ directive t author_name.

(** ** The shape of a message text with respect to the bot's mention markup *)

(** A piece of a message text: literal text, the markup [<@id>] or the
    markup [<@!id>]. *)
Inductive piece :=
  | Text (s : string)
  | Mention
  | MentionBang.

Definition mention (bot_id : Z) : string := "<@" +:+ pretty bot_id +:+ ">".
Definition mention_bang (bot_id : Z) : string := "<@!" +:+ pretty bot_id +:+ ">".

Definition piece_text (bot_id : Z) (p : piece) : string :=
  match p with
  | Text s => s
  | Mention => mention bot_id
  | MentionBang => mention_bang bot_id
  end.

(** The message text made of the pieces, in order. *)
Fixpoint assemble (bot_id : Z) (ps : list piece) : string :=
  match ps with
  | [] => ""
  | p :: rest => piece_text bot_id p +:+ assemble bot_id rest
  end.

(** The literal text of the pieces, with the markup left out. *)
Fixpoint literal (ps : list piece) : string :=
  match ps with
  | [] => ""
  | Text s :: rest => s +:+ literal rest
  | _ :: rest => literal rest
  end.

(** No character of [s] is [c]. *)
Fixpoint free_of (c : ascii) (s : string) : bool :=
  match s with
  | EmptyString => true
  | String x s' => negb (Ascii.eqb x c) && free_of c s'
  end.

(** Every literal piece is free of the character that opens the markup. *)
Fixpoint plain (ps : list piece) : bool :=
  match ps with
  | [] => true
  | Text s :: rest => free_of "<" s && plain rest
  | _ :: rest => plain rest
  end.

(** The pieces with every [<@id>] taken out. *)
Fixpoint without_mention (ps : list piece) : list piece :=
  match ps with
  | [] => []
  | Mention :: rest => without_mention rest
  | p :: rest => p :: without_mention rest
  end.

(** A minus sign or a decimal digit. *)
Definition sign_or_digit (c : ascii) : bool :=
  Ascii.eqb c "-" || ((48 <=? nat_of_ascii c)%nat && (nat_of_ascii c <=? 57)%nat).

(** Every character of [s] is a minus sign or a decimal digit. *)
Fixpoint decimal (s : string) : bool :=
  match s with
  | EmptyString => true
  | String x s' => sign_or_digit x && decimal s'
  end.

(** ** Sample data *)

Definition alice : User :=
  {| uid := 7; name := "Alice"; user_discriminator := None; bot := false |}.

Definition floppa : User :=
  {| uid := 123; name := "Floppa"; user_discriminator := None; bot := true |}.

(** A bot that has logged in as [floppa] and whose memory holds [lines]. *)
Definition bot_with (lines : list string) : bot_state :=
  {| bot_user := Some floppa;
     bot_personality := "I am Big Floppa.";
     global_message_memory := lines;
     db := BotDatabase.empty;
     sent := [];
     requests := [] |}.

(** A world in which every database call succeeds and the completion API
    does what [c] says. *)
Definition world (now : Z) (c : api_outcome) : env :=
  {| time_in := now;
     upsert_in_fails := false;
     log_in_fails := false;
     fetch_fails := false;
     openai_model := None;
     completion := c;
     time_out := now;
     upsert_out_fails := false;
     log_out_fails := false |}.

(** A message of [u] in channel 5. *)
Definition says (u : User) (text : string) (mentioned : bool) : Message :=
  {| mid := 1;
     author := u;
     content := text;
     channel := Some 5;
     guild := None;
     mentions_bot := mentioned |}.

(** A database that holds a message of [alice] and the reply of the bot. *)
Definition two_messages : BotDatabase.database :=
  BotDatabase.log_message 11 (Some 123) "Floppa" None (Some 5) None true "hi"
    (BotDatabase.log_message 10 (Some 7) "Alice" None (Some 5) (Some 1) false "hello"
       BotDatabase.empty).

(** ** Relations between the states before and after a computation *)

(** [keeps R m]: whatever the state [m] starts in, the state it ends in,
    returning or raising, is related to it by [R]. *)
Definition keeps {A} (R : relation bot_state) (m : M A) : Prop :=
  forall s, R s (snd (m s)).

(** The line that [_handle_message] appends for a message. *)
Definition line_of (message : Message) : string :=
  name (author message) +:+ ": " +:+ content message.

(** The lines of the messages of a sequence that the bot [me] did not
    write itself. *)
Definition heard (me : User) (events : list (env * Message)) : list string :=
  map (fun ev => line_of (snd ev))
    (filter (fun ev => user_eq (author (snd ev)) me = false) events).

(** The [id] of every stored message is its position in the table, counted
    from 1. *)
Definition ids_consecutive (d : BotDatabase.database) : Prop :=
  forall i r, BotDatabase.messages d !! i = Some r ->
    BotDatabase.msg_id r = Z.of_nat i + 1.

(** A bot that has not logged in yet. *)
Definition before_login : bot_state :=
  {| bot_user := None;
     bot_personality := "I am Big Floppa.";
     global_message_memory := [];
     db := BotDatabase.empty;
     sent := [];
     requests := [] |}.

(** * Properties *)

(** ** Strings *)

Lemma append_nil_l (b : string) : "" +:+ b = b.
Proof. reflexivity. Qed.

Lemma append_cons (x : ascii) (a b : string) : String x a +:+ b = String x (a +:+ b).
Proof. reflexivity. Qed.

Lemma append_nil_r (a : string) : a +:+ "" = a.
Proof. induction a as [|x a IH]; [reflexivity |]. now rewrite append_cons, IH. Qed.

Lemma append_assoc (a b c : string) : (a +:+ b) +:+ c = a +:+ (b +:+ c).
Proof.
  induction a as [|x a IH]; [reflexivity |].
  now rewrite !append_cons, IH.
Qed.

Lemma append_inv_head (a b c : string) : a +:+ b = a +:+ c -> b = c.
Proof.
  induction a as [|x a IH]; intros H; [exact H |].
  rewrite !append_cons in H. injection H as H. now apply IH.
Qed.

Lemma instruction_tone_inj t1 t2 p a c :
  instruction t1 p a c = instruction t2 p a c -> t1 = t2.
Proof.
  unfold instruction. intros H.
  do 6 apply append_inv_head in H.
  destruct t1, t2; simpl in H; try reflexivity; try discriminate H.
  all: do 2 (apply (append_inv_head "You will never admit to"%string) in H; simpl in H);
    discriminate H.
Qed.

Lemma build_prompt_instruction s a m c :
  _build_prompt s a m c
  = instruction (select_tone (length (global_message_memory s))) (bot_personality s) a c.
Proof.
  unfold _build_prompt, select_tone, instruction.
  rewrite (orb_comm (_ =? 1)%nat).
  destruct ((_ mod 5 =? 0)%nat || _); [reflexivity |].
  destruct (40 <? _)%nat; reflexivity.
Qed.

(** ** Tone selection *)

Lemma select_tone_refreshed n :
  select_tone n = Refreshed <-> (n = 1 \/ n mod 5 = 0)%nat.
Proof.
  unfold select_tone.
  destruct (n =? 1)%nat eqn:E1; cbn [orb].
  - apply Nat.eqb_eq in E1. tauto.
  - apply Nat.eqb_neq in E1.
    destruct (n mod 5 =? 0)%nat eqn:E5.
    + apply Nat.eqb_eq in E5. tauto.
    + apply Nat.eqb_neq in E5.
      split; [| tauto]. destruct (40 <? n)%nat; discriminate.
Qed.

Lemma select_tone_irritated n :
  select_tone n = Irritated <-> (~ (n = 1 \/ n mod 5 = 0) /\ 40 < n)%nat.
Proof.
  unfold select_tone.
  destruct (n =? 1)%nat eqn:E1; cbn [orb].
  - apply Nat.eqb_eq in E1. split; [discriminate | tauto].
  - apply Nat.eqb_neq in E1.
    destruct (n mod 5 =? 0)%nat eqn:E5.
    + apply Nat.eqb_eq in E5. split; [discriminate | tauto].
    + apply Nat.eqb_neq in E5.
      destruct (40 <? n)%nat eqn:E40.
      * apply Nat.ltb_lt in E40. tauto.
      * apply Nat.ltb_ge in E40. split; [discriminate | lia].
Qed.

Lemma select_tone_standard n :
  select_tone n = Standard <-> (~ (n = 1 \/ n mod 5 = 0) /\ n <= 40)%nat.
Proof.
  unfold select_tone.
  destruct (n =? 1)%nat eqn:E1; cbn [orb].
  - apply Nat.eqb_eq in E1. split; [discriminate | tauto].
  - apply Nat.eqb_neq in E1.
    destruct (n mod 5 =? 0)%nat eqn:E5.
    + apply Nat.eqb_eq in E5. split; [discriminate | tauto].
    + apply Nat.eqb_neq in E5.
      destruct (40 <? n)%nat eqn:E40.
      * apply Nat.ltb_lt in E40. split; [discriminate | lia].
      * apply Nat.ltb_ge in E40. tauto.
Qed.

(** C9.  The instruction does not depend on the text of the triggering
    message: with the same author name, context, memory length and persona,
    any two message texts give the same instruction. *)
Theorem build_prompt_ignores_message_content s1 s2 author_name context m1 m2 :
  length (global_message_memory s1) = length (global_message_memory s2) ->
  bot_personality s1 = bot_personality s2 ->
  _build_prompt s1 author_name m1 context = _build_prompt s2 author_name m2 context.
Proof.
  intros Hlen Hp. unfold _build_prompt. now rewrite Hlen, Hp.
Qed.

Lemma build_prompt_ignores_message_content_witness :
  _build_prompt (bot_with ["a"; "b"]) "Alice" "hello" "ctx"
  = _build_prompt (bot_with ["c"; "d"]) "Alice" "bye" "ctx".
Proof.
  apply (build_prompt_ignores_message_content (bot_with ["a"; "b"]) (bot_with ["c"; "d"]));
    reflexivity.
Defined.

(** ** Messages of the bot itself *)

(** C10.  A message whose author is the bot itself changes nothing: the
    handler returns with the users, the messages, the memory, the texts
    sent and the requests made all as they were. *)
Theorem own_message_ignored e message s me :
  bot_user s = Some me ->
  user_eq (author message) me = true ->
  _handle_message e message s = (Returned tt, s).
Proof.
  intros Hme Heq. unfold _handle_message, mbind, M_bind, get_state.
  now rewrite Hme, Heq.
Qed.

Lemma own_message_ignored_witness :
  _handle_message (world 10 (ApiReplies (Some "hi"))) (says floppa "<@123> hello" true)
    (bot_with ["Alice: hi"])
  = (Returned tt, bot_with ["Alice: hi"]).
Proof.
  apply (own_message_ignored _ _ _ floppa); reflexivity.
Defined.

(** ** Participants *)

(** C7.  [upsert_user] leaves the messages and every other participant
    alone.  For an identity not yet in the table it creates the row, first
    and last seen now, with each counter at 0 or 1 as its flag says.  For
    an identity already there it takes the new name, discriminator and bot
    flag, keeps first-seen, moves last-seen to now and adds 0 or 1 to each
    counter as its flag says.  Two calls with the same arguments but for
    the timestamp therefore add twice the flag to each counter and keep
    the first-seen of the first call. *)
Theorem upsert_user_spec user_id nm disc b now im imn d :
  let d1 := BotDatabase.upsert_user user_id nm disc b now im imn d in
  BotDatabase.messages d1 = BotDatabase.messages d
  /\ (forall k, k <> user_id -> BotDatabase.users d1 !! k = BotDatabase.users d !! k)
  /\ (BotDatabase.users d !! user_id = None ->
      BotDatabase.users d1 !! user_id
      = Some {| BotDatabase.username := nm;
                BotDatabase.discriminator := disc;
                BotDatabase.is_bot := b;
                BotDatabase.first_seen_at := now;
                BotDatabase.last_seen_at := now;
                BotDatabase.message_count := Z.b2z im;
                BotDatabase.mention_count := Z.b2z imn |})
  /\ (forall old, BotDatabase.users d !! user_id = Some old ->
      BotDatabase.users d1 !! user_id
      = Some {| BotDatabase.username := nm;
                BotDatabase.discriminator := disc;
                BotDatabase.is_bot := b;
                BotDatabase.first_seen_at := BotDatabase.first_seen_at old;
                BotDatabase.last_seen_at := now;
                BotDatabase.message_count := BotDatabase.message_count old + Z.b2z im;
                BotDatabase.mention_count := BotDatabase.mention_count old + Z.b2z imn |})
  /\ (forall now2,
      let d2 := BotDatabase.upsert_user user_id nm disc b now2 im imn d1 in
      exists r1 r2,
        BotDatabase.users d1 !! user_id = Some r1
        /\ BotDatabase.users d2 !! user_id = Some r2
        /\ BotDatabase.first_seen_at r2 = BotDatabase.first_seen_at r1
        /\ BotDatabase.last_seen_at r2 = now2
        /\ BotDatabase.message_count r2
           = from_option BotDatabase.message_count 0 (BotDatabase.users d !! user_id)
             + 2 * Z.b2z im
        /\ BotDatabase.mention_count r2
           = from_option BotDatabase.mention_count 0 (BotDatabase.users d !! user_id)
             + 2 * Z.b2z imn).
Proof.
  cbv zeta. unfold BotDatabase.upsert_user at 1 2 3 4.
  cbn [BotDatabase.users BotDatabase.messages].
  split; [reflexivity |].
  split; [intros k Hk; now rewrite lookup_insert_ne |].
  split; [intros ->; now rewrite lookup_insert_eq |].
  split; [intros old ->; now rewrite lookup_insert_eq |].
  intros now2. unfold BotDatabase.upsert_user.
  cbn [BotDatabase.users BotDatabase.messages].
  rewrite !lookup_insert_eq.
  eexists _, _. split; [reflexivity |]. split; [reflexivity |].
  destruct (BotDatabase.users d !! user_id) as [old|];
    cbn [from_option BotDatabase.first_seen_at BotDatabase.last_seen_at
         BotDatabase.message_count BotDatabase.mention_count];
    repeat split; lia.
Qed.

Lemma upsert_user_spec_witness :
  BotDatabase.users (BotDatabase.upsert_user 7 "Alice" None false 10 true false BotDatabase.empty) !! 7
  = Some {| BotDatabase.username := "Alice";
            BotDatabase.discriminator := None;
            BotDatabase.is_bot := false;
            BotDatabase.first_seen_at := 10;
            BotDatabase.last_seen_at := 10;
            BotDatabase.message_count := 1;
            BotDatabase.mention_count := 0 |}
  /\ BotDatabase.users
       (BotDatabase.upsert_user 7 "Al" (Some "0001") false 20 true true
          (BotDatabase.upsert_user 7 "Alice" None false 10 true false BotDatabase.empty)) !! 7
     = Some {| BotDatabase.username := "Al";
               BotDatabase.discriminator := Some "0001";
               BotDatabase.is_bot := false;
               BotDatabase.first_seen_at := 10;
               BotDatabase.last_seen_at := 20;
               BotDatabase.message_count := 1 + 1;
               BotDatabase.mention_count := 0 + 1 |}.
Proof.
  split.
  - apply (proj1 (proj2 (proj2
             (upsert_user_spec 7 "Alice" None false 10 true false BotDatabase.empty)))).
    reflexivity.
  - apply (proj1 (proj2 (proj2 (proj2
             (upsert_user_spec 7 "Al" (Some "0001") false 20 true true
                (BotDatabase.upsert_user 7 "Alice" None false 10 true false
                   BotDatabase.empty)))))
             {| BotDatabase.username := "Alice";
                BotDatabase.discriminator := None;
                BotDatabase.is_bot := false;
                BotDatabase.first_seen_at := 10;
                BotDatabase.last_seen_at := 10;
                BotDatabase.message_count := 1;
                BotDatabase.mention_count := 0 |}).
    reflexivity.
Defined.

(** ** Running computations *)

Ltac unfold_M :=
  repeat (progress unfold mbind, M_bind, mret, M_ret, get_state, modify, raise,
            try_except, db_write, db_read, send, memory_append, memory_trim,
            chat_completions_create);
  cbv beta iota.

Lemma last_n_length {A} (n : nat) (l : list A) :
  length (Py.last_n n l) = (length l `min` n)%nat.
Proof. unfold Py.last_n. rewrite length_drop. lia. Qed.

Lemma last_n_suffix {A} (n : nat) (l : list A) :
  take (length l - n) l ++ Py.last_n n l = l.
Proof. unfold Py.last_n. apply take_drop. Qed.

(** ** The context of a response *)

(** C4.  For a message in a channel: when the transcript of that channel is
    read from the database without error and is not empty, the context is
    that transcript as it is; when the read raises or the transcript is
    empty, the context is the last 100 lines of the memory (all of them
    when there are fewer).  Building the context changes nothing. *)
Theorem context_lines_spec e message s c :
  channel message = Some c ->
  let transcript := BotDatabase.get_recent_messages_for_channel c 100 (db s) in
  (fetch_fails e = false -> transcript <> [] ->
     context_lines e message s = (Returned transcript, s))
  /\ (fetch_fails e = true \/ transcript = [] ->
     context_lines e message s
     = (Returned (Py.last_n 100 (global_message_memory s)), s)
     /\ take (length (global_message_memory s) - 100) (global_message_memory s)
          ++ Py.last_n 100 (global_message_memory s)
        = global_message_memory s
     /\ length (Py.last_n 100 (global_message_memory s))
        = (length (global_message_memory s) `min` 100)%nat).
Proof.
  intros Hc transcript. unfold context_lines. rewrite Hc. unfold_M.
  split.
  - intros Hf Hne. rewrite Hf. unfold_M. fold transcript. now destruct transcript.
  - intros H. split; [| split; [apply last_n_suffix | apply last_n_length]].
    destruct (fetch_fails e); unfold_M; [reflexivity |].
    destruct H as [H | H]; [discriminate H |].
    fold transcript. now rewrite H.
Qed.

Lemma context_lines_returns e message s :
  exists lines, context_lines e message s = (Returned lines, s).
Proof.
  unfold context_lines.
  destruct (channel message) as [c|]; unfold_M.
  - destruct (fetch_fails e); unfold_M.
    + eexists. reflexivity.
    + destruct (BotDatabase.get_recent_messages_for_channel c 100 (db s));
        eexists; reflexivity.
  - eexists. reflexivity.
Qed.

(** ** One run of [_generate_response] *)

(** The state after the response handler has run for a message in channel
    [c], in each of the cases of what the completion API and the database
    do. *)
Lemma generate_response_run e message s c me lines :
  channel message = Some c ->
  bot_user s = Some me ->
  context_lines e message s = (Returned lines, s) ->
  let clean := clean_message (uid me) (content message) in
  let req :=
    {| model := default "gpt-4o-mini" (openai_model e);
       system_content :=
         _build_prompt s (name (author message)) clean (Py.join Py.LF lines);
       user_content := clean;
       max_tokens := 500 |} in
  _generate_response e message s
  = (Returned tt,
     match completion e with
     | ApiReplies (Some text) =>
         let s1 :=
           set_memory (fun l => l ++ ["Bot: " +:+ Py.strip text])
             (add_sent c (Py.strip text) (add_request req s)) in
         if upsert_out_fails e then s1
         else
           let s2 :=
             set_db (BotDatabase.upsert_user (uid me) (name me) (user_discriminator me)
                       true (time_out e) true false) s1 in
           if log_out_fails e then s2
           else
             set_db (BotDatabase.log_message (time_out e) (Some (uid me)) (name me)
                       (guild message) (Some c) None true (Py.strip text)) s2
     | _ =>
         set_memory (fun l => l ++ ["Bot: " +:+ error_message])
           (add_sent c error_message (add_request req s))
     end).
Proof.
  intros Hc Hme Hlines. cbv zeta.
  unfold _generate_response.
  unfold mbind at 1. unfold M_bind at 1. rewrite Hlines.
  unfold mbind at 1. unfold M_bind at 1. unfold get_state at 1. cbv beta iota.
  rewrite Hme, Hc.
  destruct (completion e) as [| [text|]] eqn:Hcomp; unfold_M; rewrite ?Hcomp; unfold_M;
    try reflexivity.
  destruct (upsert_out_fails e); unfold_M; [reflexivity |].
  destruct (log_out_fails e); unfold_M; reflexivity.
Qed.

(** C5.  When the call of the completion API raises (or its response has
    no text to strip), the response handler returns without raising; the
    channel of the message has received the fixed apology and nothing
    else; the memory has gained the one line "Bot: " followed by the
    apology; the database is as it was, so no record of the apology is
    written; and the API has been called once. *)
Theorem completion_failure_apology e message s c me :
  channel message = Some c ->
  bot_user s = Some me ->
  completion e = ApiRaises \/ completion e = ApiReplies None ->
  exists s',
    _generate_response e message s = (Returned tt, s')
    /\ sent s' = sent s ++ [(c, "Sorry, there was an error processing your request.")]
    /\ global_message_memory s'
       = global_message_memory s
           ++ ["Bot: Sorry, there was an error processing your request."]
    /\ db s' = db s
    /\ length (requests s') = S (length (requests s)).
Proof.
  intros Hc Hme Hcomp.
  destruct (context_lines_returns e message s) as [lines Hlines].
  rewrite (generate_response_run e message s c me lines Hc Hme Hlines).
  destruct Hcomp as [-> | ->];
    (eexists; split; [reflexivity |]);
    cbn [sent global_message_memory db requests set_memory add_sent add_request];
    repeat split; rewrite length_app; cbn; lia.
Qed.

(** ** One run of [_handle_message] *)

(** The state in which [_handle_message] decides whether to respond: the
    author and the message logged as far as the database allowed, the line
    of the message appended to the memory and the oldest line dropped when
    that made more than 100. *)
Lemma handle_message_run e message s me :
  bot_user s = Some me ->
  user_eq (author message) me = false ->
  let u := author message in
  let logged :=
    if upsert_in_fails e then s
    else
      let s1 :=
        set_db (BotDatabase.upsert_user (uid u) (name u) (user_discriminator u) (bot u)
                  (time_in e) true (mentions_bot message)) s in
      if log_in_fails e then s1
      else
        set_db (BotDatabase.log_message (time_in e) (Some (uid u)) (name u)
                  (guild message) (channel message) (Some (mid message)) false
                  (content message)) s1 in
  let appended := set_memory (fun l => l ++ [name u +:+ ": " +:+ content message]) logged in
  let trimmed :=
    if (100 <? length (global_message_memory appended))%nat
    then set_memory (drop 1) appended
    else appended in
  _handle_message e message s
  = if mentions_bot message then _generate_response e message trimmed
    else (Returned tt, trimmed).
Proof.
  intros Hme Hne. cbv zeta.
  unfold _handle_message.
  unfold mbind at 1. unfold M_bind at 1. unfold get_state at 1. cbv beta iota.
  rewrite Hme, Hne.
  destruct (upsert_in_fails e); [| destruct (log_in_fails e)]; unfold_M;
    match goal with
    | |- context [(100 <? ?n)%nat] => destruct (100 <? n)%nat
    end; destruct (mentions_bot message); reflexivity.
Qed.

Lemma set_db_memory f s : global_message_memory (set_db f s) = global_message_memory s.
Proof. reflexivity. Qed.

Lemma set_db_bot_user f s : bot_user (set_db f s) = bot_user s.
Proof. reflexivity. Qed.

Lemma set_memory_bot_user f s : bot_user (set_memory f s) = bot_user s.
Proof. reflexivity. Qed.

(** The trimming of [_handle_message] keeps a memory of at most 100 lines
    within 100 lines when the bot is not mentioned. *)
Lemma unmentioned_message_keeps_bound e message s me :
  bot_user s = Some me ->
  user_eq (author message) me = false ->
  mentions_bot message = false ->
  (length (global_message_memory s) <= 100)%nat ->
  (length (global_message_memory (snd (_handle_message e message s))) <= 100)%nat.
Proof.
  intros Hme Hne Hm Hlen.
  rewrite (handle_message_run e message s me Hme Hne). cbv zeta. rewrite Hm.
  cbn [snd].
  assert (Hk : forall t, global_message_memory t = global_message_memory s ->
    (length (global_message_memory
       (if (100 <? length (global_message_memory
              (set_memory (fun l => l ++ [name (author message) +:+ ": " +:+ content message]) t)))%nat
        then set_memory (drop 1)
               (set_memory (fun l => l ++ [name (author message) +:+ ": " +:+ content message]) t)
        else set_memory (fun l => l ++ [name (author message) +:+ ": " +:+ content message]) t))
     <= 100)%nat).
  { intros t Ht. cbn [global_message_memory set_memory]. rewrite Ht.
    destruct (100 <? _)%nat eqn:E; cbn [global_message_memory set_memory]; rewrite Ht.
    - rewrite length_drop, length_app. cbn [length]. lia.
    - now apply Nat.ltb_ge in E. }
  destruct (upsert_in_fails e); [| destruct (log_in_fails e)]; now apply Hk.
Qed.

(** The reply appended by [_generate_response] is not followed by a
    trimming: a mention received with 100 lines in memory leaves 101. *)
Lemma mentioned_message_breaks_bound e message s me c :
  bot_user s = Some me ->
  user_eq (author message) me = false ->
  mentions_bot message = true ->
  channel message = Some c ->
  length (global_message_memory s) = 100%nat ->
  length (global_message_memory (snd (_handle_message e message s))) = 101%nat.
Proof.
  intros Hme Hne Hm Hc Hlen.
  rewrite (handle_message_run e message s me Hme Hne). cbv zeta. rewrite Hm.
  match goal with
  | |- context [_generate_response e message ?t] => set (t0 := t)
  end.
  assert (Ht : length (global_message_memory t0) = 100%nat /\ bot_user t0 = Some me).
  { assert (E : forall x : string,
              (100 <? length (global_message_memory s ++ [x]))%nat = true)
      by (intros x; rewrite length_app, Hlen; reflexivity).
    subst t0.
    destruct (upsert_in_fails e); [| destruct (log_in_fails e)];
      cbn [global_message_memory set_memory set_db bot_user];
      rewrite E; cbn [global_message_memory set_memory set_db bot_user];
      (split; [| exact Hme]);
      rewrite length_drop, length_app, Hlen; reflexivity. }
  clearbody t0. destruct Ht as [Ht Hu].
  destruct (context_lines_returns e message t0) as [lines Hlines].
  rewrite (generate_response_run e message t0 c me lines Hc Hu Hlines).
  cbn [snd].
  destruct (completion e) as [| [text|]];
    [| destruct (upsert_out_fails e); [| destruct (log_out_fails e)] |];
    cbn [global_message_memory set_memory set_db add_sent add_request];
    rewrite length_app, Ht; reflexivity.
Qed.

(** The request made for a message that mentions the bot carries the
    instruction chosen by the length the memory has once the line of the
    message is appended and the oldest line dropped. *)
Lemma handle_message_request e message s me c :
  bot_user s = Some me ->
  user_eq (author message) me = false ->
  mentions_bot message = true ->
  channel message = Some c ->
  let appended :=
    global_message_memory s ++ [name (author message) +:+ ": " +:+ content message] in
  let n := length (if (100 <? length appended)%nat then drop 1 appended else appended) in
  exists req context,
    requests (snd (_handle_message e message s)) = requests s ++ [req]
    /\ system_content req
       = instruction (select_tone n) (bot_personality s) (name (author message)) context.
Proof.
  intros Hme Hne Hm Hc. cbv zeta.
  rewrite (handle_message_run e message s me Hme Hne). cbv zeta. rewrite Hm.
  match goal with
  | |- context [_generate_response e message ?t] => set (t0 := t)
  end.
  assert (Ht : bot_user t0 = Some me
               /\ requests t0 = requests s
               /\ bot_personality t0 = bot_personality s
               /\ global_message_memory t0
                  = (let appended :=
                       global_message_memory s
                         ++ [name (author message) +:+ ": " +:+ content message] in
                     if (100 <? length appended)%nat then drop 1 appended else appended)).
  { subst t0. cbv zeta.
    destruct (upsert_in_fails e); [| destruct (log_in_fails e)];
      cbn [global_message_memory set_memory set_db bot_user requests bot_personality];
      destruct (100 <? _)%nat;
      cbn [global_message_memory set_memory set_db bot_user requests bot_personality];
      repeat split; assumption. }
  clearbody t0. destruct Ht as (Hu & Hr & Hp & Hmem). cbv zeta in Hmem.
  destruct (context_lines_returns e message t0) as [lines Hlines].
  rewrite (generate_response_run e message t0 c me lines Hc Hu Hlines).
  cbn [snd]. rewrite <- Hmem, <- Hp, <- Hr.
  eexists _, (Py.join Py.LF lines). split.
  - destruct (completion e) as [| [text|]];
      [| destruct (upsert_out_fails e); [| destruct (log_out_fails e)] |];
      reflexivity.
  - cbn [system_content]. apply build_prompt_instruction.
Qed.

(** C1.  The instruction built by [_build_prompt] depends on the memory only
    through its length [n], and its tone follows the rule: Refreshed when
    [n = 1] or [n mod 5 = 0]; otherwise Irritated when [n > 40]; otherwise
    Standard.  The three instructions differ, so the tone can be read off
    the instruction.  Refreshed comes first: 1, 5, 10, 45 and 50 give
    Refreshed, 41 to 44 and 46 to 49 give Irritated, and 2, 3, 4, 6, 7, 8
    and 9 give Standard.  In the handler, [n] is the length of the memory
    after the line of the triggering message has been appended. *)
Theorem tone_selection :
  (forall s author_name message_content context,
      _build_prompt s author_name message_content context
      = instruction (select_tone (length (global_message_memory s)))
          (bot_personality s) author_name context)
  /\ (forall t1 t2 p a c, instruction t1 p a c = instruction t2 p a c -> t1 = t2)
  /\ (forall n,
        (select_tone n = Refreshed <-> (n = 1 \/ n mod 5 = 0)%nat)
        /\ (select_tone n = Irritated <-> (~ (n = 1 \/ n mod 5 = 0) /\ 40 < n)%nat)
        /\ (select_tone n = Standard <-> (~ (n = 1 \/ n mod 5 = 0) /\ n <= 40)%nat))
  /\ Forall (fun n => select_tone n = Refreshed) [1; 5; 10; 45; 50]%nat
  /\ Forall (fun n => select_tone n = Irritated) [41; 42; 43; 44; 46; 47; 48; 49]%nat
  /\ Forall (fun n => select_tone n = Standard) [2; 3; 4; 6; 7; 8; 9]%nat
  /\ (forall e message s me c,
        bot_user s = Some me ->
        user_eq (author message) me = false ->
        mentions_bot message = true ->
        channel message = Some c ->
        let appended :=
          global_message_memory s ++ [name (author message) +:+ ": " +:+ content message] in
        let n := length (if (100 <? length appended)%nat then drop 1 appended else appended) in
        exists req context,
          requests (snd (_handle_message e message s)) = requests s ++ [req]
          /\ system_content req
             = instruction (select_tone n) (bot_personality s) (name (author message)) context).
Proof.
  split; [exact build_prompt_instruction |].
  split; [exact instruction_tone_inj |].
  split.
  { intros n. split; [apply select_tone_refreshed |].
    split; [apply select_tone_irritated | apply select_tone_standard]. }
  split; [repeat constructor |].
  split; [repeat constructor |].
  split; [repeat constructor |].
  exact handle_message_request.
Qed.

Lemma tone_selection_witness :
  exists req context,
    requests (snd (_handle_message (world 10 (ApiReplies (Some "hi")))
                     (says alice "<@123> hello" true) (bot_with [])))
    = [] ++ [req]
    /\ system_content req = instruction Refreshed "I am Big Floppa." "Alice" context.
Proof.
  apply (proj2 (proj2 (proj2 (proj2 (proj2 (proj2 tone_selection)))))
           (world 10 (ApiReplies (Some "hi"))) (says alice "<@123> hello" true)
           (bot_with []) floppa 5); reflexivity.
Defined.

(** ** The memory past its capacity *)

(** C2.  With 100 lines in memory, one message that mentions the bot and is
    answered leaves 101 lines: the line of the message is appended and the
    oldest line dropped, then the reply is appended and nothing is
    dropped. *)
Theorem memory_exceeds_100_after_reply :
  let s := bot_with (replicate 100 "x") in
  let s' := run [(world 10 (ApiReplies (Some "hi")), says alice "<@123> hello" true)] s in
  length (global_message_memory s) = 100%nat
  /\ length (global_message_memory s') = 101%nat
  /\ global_message_memory s' = replicate 99 "x" ++ ["Alice: <@123> hello"; "Bot: hi"].
Proof. vm_compute. repeat split. Qed.

(** C3.  With 100 lines in memory, two messages that mention the bot and
    are answered: the first is answered with 100 lines in memory and the
    Refreshed instruction, and leaves 101 lines; the second is answered
    with 101 lines in memory and the Irritated instruction, and leaves
    102. *)
Theorem tone_changes_after_saturation :
  let s := bot_with (replicate 100 "x") in
  let first := (world 10 (ApiReplies (Some "hi")), says alice "<@123> hello" true) in
  let second := (world 20 (ApiReplies (Some "what")), says alice "<@123> again" true) in
  let s1 := run [first] s in
  let s2 := run [first; second] s in
  length (global_message_memory s) = 100%nat
  /\ length (global_message_memory s1) = 101%nat
  /\ length (global_message_memory s2) = 102%nat
  /\ map system_content (requests s2)
     = [ instruction Refreshed "I am Big Floppa." "Alice"
           (Py.join Py.LF ["Alice: <@123> hello"]);
         instruction Irritated "I am Big Floppa." "Alice"
           (Py.join Py.LF ["Alice: <@123> hello"; "Bot: hi"; "Alice: <@123> again"]) ].
Proof. vm_compute. repeat split. Qed.

(** ** The transcript of a channel *)

Section Ordering.

Import BotDatabase.

Lemma insert_desc_perm r l : insert_desc r l ≡ₚ r :: l.
Proof.
  induction l as [|x l IH]; cbn [insert_desc]; [reflexivity |].
  destruct (msg_ts x <=? msg_ts r); [reflexivity |].
  rewrite IH. apply Permutation_swap.
Qed.

Lemma insert_desc_sorted r l :
  StronglySorted newer_first l -> StronglySorted newer_first (insert_desc r l).
Proof.
  induction l as [|x l IH]; cbn [insert_desc]; intros Hs.
  - repeat constructor.
  - apply StronglySorted_cons in Hs as [Hx Hl].
    destruct (msg_ts x <=? msg_ts r) eqn:E.
    + apply Z.leb_le in E.
      apply StronglySorted_cons. split; [| now apply StronglySorted_cons].
      constructor; [exact E |].
      eapply Forall_impl; [exact Hx |]. unfold newer_first. intros y Hy. lia.
    + apply Z.leb_gt in E.
      apply StronglySorted_cons. split; [| now apply IH].
      rewrite insert_desc_perm. constructor; [unfold newer_first; lia | exact Hx].
Qed.

Lemma order_from_perm rows acc :
  foldl (fun a r => insert_desc r a) acc rows ≡ₚ acc ++ rows.
Proof.
  revert acc. induction rows as [|r rows IH]; intros acc; cbn [foldl].
  - now rewrite app_nil_r.
  - rewrite IH, insert_desc_perm. apply Permutation_middle.
Qed.

Lemma order_from_sorted rows acc :
  StronglySorted newer_first acc ->
  StronglySorted newer_first (foldl (fun a r => insert_desc r a) acc rows).
Proof.
  revert acc. induction rows as [|r rows IH]; intros acc Hacc; cbn [foldl].
  - exact Hacc.
  - apply IH. now apply insert_desc_sorted.
Qed.

Lemma order_by_ts_desc_perm rows : order_by_ts_desc rows ≡ₚ rows.
Proof. unfold order_by_ts_desc. now rewrite order_from_perm. Qed.

Lemma order_by_ts_desc_sorted rows :
  StronglySorted (fun a b => msg_ts b <= msg_ts a) (order_by_ts_desc rows).
Proof. apply (order_from_sorted rows []). constructor. Qed.

Lemma StronglySorted_reverse {A} (R : relation A) (l : list A) :
  StronglySorted R l -> StronglySorted (flip R) (reverse l).
Proof.
  induction 1 as [|x l Hl IH Hx]; [constructor |].
  rewrite reverse_cons. apply StronglySorted_app. split; [| split].
  - intros a b Ha Hb. apply list_elem_of_singleton in Hb as ->.
    rewrite elem_of_reverse in Ha. unfold flip.
    rewrite Forall_forall in Hx. now apply Hx.
  - exact IH.
  - repeat constructor.
Qed.

End Ordering.

(** C6.  For a limit that is not negative, the transcript of a channel is
    the rendering, line by line, of a list [sel] of rows of that channel:
    [sel] has [limit] rows, or all rows of the channel when there are
    fewer; no row of the channel left out of [sel] is newer than a row of
    [sel]; [sel] is in chronological order; and a row is rendered as its
    stored name, or "Bot" when it is flagged as the bot's, followed by a
    colon, a space and its content. *)
Theorem recent_transcript_spec channel_id limit d :
  0 <= limit ->
  exists sel rest,
    BotDatabase.get_recent_messages_for_channel channel_id limit d
    = map BotDatabase.render_line sel
    /\ length (BotDatabase.get_recent_messages_for_channel channel_id limit d)
       = length sel
    /\ (length sel <= Z.to_nat limit)%nat
    /\ sel ++ rest
       ≡ₚ filter (fun r => BotDatabase.msg_channel_id r = Some channel_id)
            (BotDatabase.messages d)
    /\ length sel
       = (Z.to_nat limit
          `min` length (filter (fun r => BotDatabase.msg_channel_id r = Some channel_id)
                          (BotDatabase.messages d)))%nat
    /\ (forall old new, old ∈ rest -> new ∈ sel ->
          BotDatabase.msg_ts old <= BotDatabase.msg_ts new)
    /\ StronglySorted (fun a b => BotDatabase.msg_ts a <= BotDatabase.msg_ts b) sel
    /\ (forall r, BotDatabase.render_line r
                  = (if BotDatabase.msg_is_bot r then "Bot" else BotDatabase.msg_username r)
                    +:+ ": " +:+ BotDatabase.msg_content r).
Proof.
  intros Hlimit.
  set (rows := filter (fun r => BotDatabase.msg_channel_id r = Some channel_id)
                 (BotDatabase.messages d)).
  set (chosen := filter (fun r => BotDatabase.in_channel channel_id r = true)
                   (BotDatabase.messages d)).
  assert (Hrows : chosen = rows).
  { subst chosen rows. apply list_filter_iff. intros r.
    unfold BotDatabase.in_channel. destruct (BotDatabase.msg_channel_id r) as [c|].
    - rewrite Z.eqb_eq. split; [now intros -> | now intros [= ->]].
    - split; discriminate. }
  set (sorted := BotDatabase.order_by_ts_desc chosen).
  assert (Hperm : sorted ≡ₚ rows).
  { subst sorted. rewrite <- Hrows. apply order_by_ts_desc_perm. }
  assert (Hsorted : StronglySorted
            (fun a b => BotDatabase.msg_ts b <= BotDatabase.msg_ts a) sorted)
    by apply order_by_ts_desc_sorted.
  assert (Hsel : BotDatabase.select_recent channel_id limit d
                 = take (Z.to_nat limit) sorted).
  { unfold BotDatabase.select_recent, BotDatabase.sql_limit. fold chosen. fold sorted.
    destruct (limit <? 0) eqn:E; [apply Z.ltb_lt in E; lia | reflexivity]. }
  exists (reverse (take (Z.to_nat limit) sorted)), (drop (Z.to_nat limit) sorted).
  unfold BotDatabase.get_recent_messages_for_channel. rewrite Hsel.
  split; [reflexivity |].
  split; [now rewrite length_map |].
  split; [rewrite length_reverse, length_take; lia |].
  split; [now rewrite reverse_Permutation, take_drop |].
  split; [rewrite length_reverse, length_take, Hperm; reflexivity |].
  split.
  { intros old new Hold Hnew. rewrite elem_of_reverse in Hnew.
    rewrite <- (take_drop (Z.to_nat limit) sorted) in Hsorted.
    exact (StronglySorted_app_1_elem_of _ _ _ _ _ Hsorted Hnew Hold). }
  split; [| reflexivity].
  apply (StronglySorted_reverse (fun a b => BotDatabase.msg_ts b <= BotDatabase.msg_ts a)).
  rewrite <- (take_drop (Z.to_nat limit) sorted) in Hsorted.
  exact (StronglySorted_app_1_l _ _ _ Hsorted).
Qed.

(** ** The text sent to the completion API *)

Section Replace.

Lemma prefix_append (old s : string) : String.prefix old (old +:+ s) = true.
Proof.
  induction old as [|c old IH]; [now destruct s |].
  rewrite append_cons. cbn [String.prefix].
  destruct (ascii_dec c c); [exact IH | congruence].
Qed.

Lemma prefix_other_head (c x : ascii) (old s : string) :
  Ascii.eqb x c = false -> String.prefix (String c old) (String x s) = false.
Proof.
  intros Hx. cbn [String.prefix].
  destruct (ascii_dec c x) as [->|]; [| reflexivity].
  now rewrite Ascii.eqb_refl in Hx.
Qed.

Lemma replace_from_skip (old new a s : string) :
  Py.replace_from old new (String.length a) (a +:+ s) = Py.replace_from old new 0 s.
Proof.
  induction a as [|x a IH]; [reflexivity |].
  rewrite append_cons. cbn [String.length Py.replace_from]. exact IH.
Qed.

(** A run of text without the first character of [old] is copied. *)
Lemma replace_from_text (c : ascii) (old new t s : string) :
  free_of c t = true ->
  Py.replace_from (String c old) new 0 (t +:+ s)
  = t +:+ Py.replace_from (String c old) new 0 s.
Proof.
  induction t as [|x t IH]; intros Ht; [reflexivity |].
  cbn [free_of] in Ht. apply andb_true_iff in Ht as [Hx Ht].
  apply negb_true_iff in Hx.
  rewrite !append_cons. cbn [Py.replace_from].
  rewrite (prefix_other_head c x old _ Hx). now rewrite IH.
Qed.

(** An occurrence of [old] at the current position is replaced. *)
Lemma replace_from_old (c : ascii) (old new s : string) :
  Py.replace_from (String c old) new 0 (String c old +:+ s)
  = new +:+ Py.replace_from (String c old) new 0 s.
Proof.
  rewrite append_cons. cbn [Py.replace_from].
  rewrite <- append_cons, prefix_append.
  cbn [String.length Nat.sub]. rewrite Nat.sub_0_r.
  now rewrite replace_from_skip.
Qed.

Lemma free_of_append (c : ascii) (a b : string) :
  free_of c (a +:+ b) = free_of c a && free_of c b.
Proof.
  induction a as [|x a IH]; [reflexivity |].
  rewrite append_cons. cbn [free_of]. now rewrite IH, andb_assoc.
Qed.

Lemma free_of_lstrip (c : ascii) (s : string) :
  free_of c s = true -> free_of c (Py.lstrip s) = true.
Proof.
  induction s as [|x s IH]; intros H; [reflexivity |].
  cbn [Py.lstrip]. destruct (Py.isspace x); [| exact H].
  cbn [free_of] in H. apply andb_true_iff in H as [_ H]. now apply IH.
Qed.

Lemma free_of_rstrip (c : ascii) (s : string) :
  free_of c s = true -> free_of c (Py.rstrip s) = true.
Proof.
  induction s as [|x s IH]; intros H; [reflexivity |].
  cbn [free_of] in H. apply andb_true_iff in H as [Hx H].
  cbn [Py.rstrip]. specialize (IH H).
  destruct (Py.rstrip s) as [|y r].
  - destruct (Py.isspace x); [reflexivity |]. cbn [free_of]. now rewrite Hx.
  - cbn [free_of] in *. now rewrite Hx, IH.
Qed.

Lemma free_of_strip (c : ascii) (s : string) :
  free_of c s = true -> free_of c (Py.strip s) = true.
Proof. intros H. unfold Py.strip. now apply free_of_rstrip, free_of_lstrip. Qed.

(** A text without the first character of [sub] does not contain [sub]. *)
Lemma free_of_contains (c : ascii) (sub t : string) :
  free_of c t = true -> Py.contains (String c sub) t = false.
Proof.
  induction t as [|x t IH]; intros Ht; [reflexivity |].
  cbn [free_of] in Ht. apply andb_true_iff in Ht as [Hx Ht].
  apply negb_true_iff in Hx.
  cbn [Py.contains]. rewrite (prefix_other_head c x sub t Hx). now apply IH.
Qed.

End Replace.

Section Decimal.

Lemma pretty_N_char_digit (x : N) : sign_or_digit (pretty_N_char x) = true.
Proof. unfold pretty_N_char. repeat case_match; reflexivity. Qed.

Lemma pretty_N_go_decimal (x : N) (s : string) :
  decimal s = true ->
  (0 < x)%N \/ s <> "" ->
  decimal (pretty_N_go x s) = true /\ pretty_N_go x s <> "".
Proof.
  revert s. induction (N.lt_wf_0 x) as [x _ IH]. intros s Hs Hne.
  destruct (decide (0 < x)%N) as [Hx | Hx].
  - rewrite pretty_N_go_step by exact Hx.
    apply IH.
    + now apply N.div_lt.
    + cbn [decimal]. now rewrite pretty_N_char_digit.
    + right. discriminate.
  - assert (x = 0%N) as -> by lia. rewrite pretty_N_go_0.
    split; [exact Hs |]. destruct Hne as [Hne | Hne]; [lia | exact Hne].
Qed.

Lemma pretty_positive_decimal (x : positive) :
  decimal (pretty x) = true /\ pretty x <> "".
Proof.
  unfold pretty, pretty_positive, pretty, pretty_N.
  destruct (decide (N.pos x = 0%N)) as [H | _]; [discriminate H |].
  apply pretty_N_go_decimal; [reflexivity | left; lia].
Qed.

(** [str(n)] of an integer is not empty and made of a sign and digits. *)
Lemma pretty_Z_decimal (z : Z) : decimal (pretty z) = true /\ pretty z <> "".
Proof.
  destruct z as [|x|x].
  - split; [reflexivity | discriminate].
  - apply pretty_positive_decimal.
  - change (pretty (Z.neg x)) with ("-" +:+ pretty x).
    destruct (pretty_positive_decimal x) as [Hd _].
    rewrite append_cons, append_nil_l. cbn [decimal]. rewrite Hd.
    split; [reflexivity | discriminate].
Qed.

Lemma sign_or_digit_not_markup (c : ascii) :
  sign_or_digit c = true -> Ascii.eqb c "<" = false /\ Ascii.eqb c "!" = false.
Proof.
  destruct c as [[] [] [] [] [] [] [] []]; vm_compute; intros H;
    first [discriminate H | split; reflexivity].
Qed.

Lemma decimal_free_of_lt (s : string) : decimal s = true -> free_of "<" s = true.
Proof.
  induction s as [|x s IH]; intros H; [reflexivity |].
  cbn [decimal] in H. apply andb_true_iff in H as [Hx H].
  cbn [free_of]. rewrite (IH H).
  destruct (sign_or_digit_not_markup x Hx) as [-> _]. reflexivity.
Qed.

End Decimal.

Section Cleaning.

Variable bot_id : Z.

Lemma mention_unfold :
  mention bot_id = String "<" (String "@" (pretty bot_id +:+ ">")).
Proof. reflexivity. Qed.

Lemma mention_bang_unfold :
  mention_bang bot_id = String "<" (String "@" (String "!" (pretty bot_id +:+ ">"))).
Proof. reflexivity. Qed.

(** The scan for [<@id>] does not stop at [<@!id>]. *)
Lemma mention_not_prefix_of_bang (s : string) :
  String.prefix (mention bot_id) (mention_bang bot_id +:+ s) = false.
Proof.
  rewrite mention_unfold, mention_bang_unfold, !append_cons.
  destruct (pretty_Z_decimal bot_id) as [Hd Hne].
  destruct (pretty bot_id) as [|c r]; [congruence |].
  cbn [decimal] in Hd. apply andb_true_iff in Hd as [Hc _].
  destruct (sign_or_digit_not_markup c Hc) as [_ Hbang].
  rewrite append_cons. cbn [String.prefix].
  destruct (ascii_dec "<" "<"); [| congruence].
  destruct (ascii_dec "@" "@"); [| congruence].
  destruct (ascii_dec c "!") as [->|]; [discriminate Hbang | reflexivity].
Qed.

Lemma bang_tail_free_of_lt :
  free_of "<" (String "@" (String "!" (pretty bot_id +:+ ">"))) = true.
Proof.
  cbn [free_of]. rewrite free_of_append.
  destruct (pretty_Z_decimal bot_id) as [Hd _].
  now rewrite (decimal_free_of_lt _ Hd).
Qed.

(** The first pass takes out every [<@id>] and nothing else. *)
Lemma replace_mention (ps : list piece) :
  plain ps = true ->
  Py.replace_from (mention bot_id) "" 0 (assemble bot_id ps)
  = assemble bot_id (without_mention ps).
Proof.
  induction ps as [|[t| |] ps IH]; intros Hp; cbn [plain] in Hp;
    cbn [assemble without_mention piece_text].
  - reflexivity.
  - apply andb_true_iff in Hp as [Ht Hp].
    rewrite mention_unfold, replace_from_text by exact Ht.
    rewrite <- mention_unfold. now rewrite IH.
  - rewrite mention_unfold at 1 2. rewrite replace_from_old, append_nil_l.
    rewrite <- mention_unfold. now apply IH.
  - pose proof (mention_not_prefix_of_bang (assemble bot_id ps)) as Hpre.
    rewrite mention_bang_unfold in Hpre |- *. rewrite append_cons in Hpre |- *.
    rewrite mention_unfold in Hpre at 1. rewrite mention_unfold at 1.
    cbn [Py.replace_from]. rewrite Hpre.
    rewrite replace_from_text by exact bang_tail_free_of_lt.
    rewrite <- mention_unfold. rewrite IH by exact Hp.
    now rewrite append_cons.
Qed.

(** The second pass takes out every [<@!id>], leaving the literal text. *)
Lemma replace_mention_bang (ps : list piece) :
  plain ps = true ->
  Py.replace_from (mention_bang bot_id) "" 0 (assemble bot_id (without_mention ps))
  = literal ps.
Proof.
  induction ps as [|[t| |] ps IH]; intros Hp; cbn [plain] in Hp;
    cbn [assemble without_mention piece_text literal].
  - reflexivity.
  - apply andb_true_iff in Hp as [Ht Hp].
    rewrite mention_bang_unfold, replace_from_text by exact Ht.
    rewrite <- mention_bang_unfold. now rewrite IH.
  - now apply IH.
  - rewrite mention_bang_unfold at 1 2. rewrite replace_from_old, append_nil_l.
    rewrite <- mention_bang_unfold. now apply IH.
Qed.

Lemma plain_literal (ps : list piece) :
  plain ps = true -> free_of "<" (literal ps) = true.
Proof.
  induction ps as [|[t| |] ps IH]; intros Hp; cbn [plain] in Hp; cbn [literal];
    [reflexivity | | now apply IH | now apply IH].
  apply andb_true_iff in Hp as [Ht Hp].
  now rewrite free_of_append, Ht, IH.
Qed.

(** A text made of markup and of literal pieces without [<] is cleaned to
    its literal text, stripped. *)
Lemma clean_message_assemble (ps : list piece) :
  plain ps = true ->
  clean_message bot_id (assemble bot_id ps) = Py.strip (literal ps).
Proof.
  intros Hp. unfold clean_message.
  change ("<@" +:+ pretty bot_id +:+ ">") with (mention bot_id).
  change ("<@!" +:+ pretty bot_id +:+ ">") with (mention_bang bot_id).
  assert (H1 : forall t, Py.replace t (mention bot_id) ""
                         = Py.replace_from (mention bot_id) "" 0 t)
    by (intros t; now rewrite mention_unfold).
  assert (H2 : forall t, Py.replace t (mention_bang bot_id) ""
                         = Py.replace_from (mention_bang bot_id) "" 0 t)
    by (intros t; now rewrite mention_bang_unfold).
  now rewrite H1, H2, replace_mention, replace_mention_bang.
Qed.

Lemma clean_message_free_of_markup (ps : list piece) :
  plain ps = true ->
  Py.contains (mention bot_id) (clean_message bot_id (assemble bot_id ps)) = false
  /\ Py.contains (mention_bang bot_id) (clean_message bot_id (assemble bot_id ps)) = false.
Proof.
  intros Hp. rewrite (clean_message_assemble ps Hp).
  pose proof (free_of_strip "<" _ (plain_literal ps Hp)) as Hfree.
  rewrite mention_unfold, mention_bang_unfold.
  split; now apply free_of_contains.
Qed.

End Cleaning.

(** C8, as the code has it.  The text sent as user content is the message
    text after one scan from the left that deletes each [<@id>] it meets,
    one scan of the result that deletes each [<@!id>] it meets, and the
    stripping of the white space at both ends.  When the message text is
    made of markup and of literal pieces without the character [<], the
    text sent is the literal text, stripped, and contains neither form of
    the markup. *)
Theorem mention_markup_removed e message s c me :
  channel message = Some c ->
  bot_user s = Some me ->
  exists req,
    requests (snd (_generate_response e message s)) = requests s ++ [req]
    /\ user_content req
       = Py.strip
           (Py.replace
              (Py.replace (content message) ("<@" +:+ pretty (uid me) +:+ ">") "")
              ("<@!" +:+ pretty (uid me) +:+ ">") "")
    /\ (forall ps,
          content message = assemble (uid me) ps ->
          plain ps = true ->
          user_content req = Py.strip (literal ps)
          /\ Py.contains ("<@" +:+ pretty (uid me) +:+ ">") (user_content req) = false
          /\ Py.contains ("<@!" +:+ pretty (uid me) +:+ ">") (user_content req) = false).
Proof.
  intros Hc Hme.
  destruct (context_lines_returns e message s) as [lines Hlines].
  rewrite (generate_response_run e message s c me lines Hc Hme Hlines).
  eexists. split; [| split].
  - cbn [snd].
    destruct (completion e) as [| [text|]];
      [| destruct (upsert_out_fails e); [| destruct (log_out_fails e)] |];
      reflexivity.
  - reflexivity.
  - intros ps Hps Hplain. cbn [user_content]. rewrite Hps.
    split; [now apply clean_message_assemble |].
    now apply clean_message_free_of_markup.
Qed.

Lemma mention_markup_removed_witness :
  exists req,
    requests (snd (_generate_response (world 10 (ApiReplies (Some "hi")))
                     (says alice "<@123> hello <@!123>" true) (bot_with [])))
    = [req]
    /\ user_content req = "hello"
    /\ Py.contains "<@123>" (user_content req) = false
    /\ Py.contains "<@!123>" (user_content req) = false.
Proof.
  destruct (mention_markup_removed (world 10 (ApiReplies (Some "hi")))
              (says alice "<@123> hello <@!123>" true) (bot_with []) 5 floppa
              eq_refl eq_refl) as (req & Hreq & _ & Hps).
  exists req. split; [exact Hreq |].
  exact (Hps [Mention; Text " hello "; MentionBang] eq_refl eq_refl).
Defined.

(** C8, as the specification has it, fails: a deletion can splice a new
    occurrence of the markup together.  For the bot 123 the message text
    [<@<@123>123>] is sent as [<@123>]. *)
Lemma mention_markup_spliced :
  let s' := run [(world 10 (ApiReplies (Some "hi")), says alice "<@<@123>123>" true)]
              (bot_with []) in
  map user_content (requests s') = ["<@123>"]
  /\ Py.contains ("<@" +:+ pretty (uid floppa) +:+ ">") "<@123>" = true.
Proof. vm_compute. split; reflexivity. Qed.

(** ** Instances *)

Lemma context_lines_spec_witness :
  context_lines (world 10 ApiRaises) (says alice "hi" true)
    (set_db (BotDatabase.log_message 10 (Some 7) "Alice" None (Some 5) (Some 1) false "hi")
       (bot_with ["x"]))
  = (Returned ["Alice: hi"],
     set_db (BotDatabase.log_message 10 (Some 7) "Alice" None (Some 5) (Some 1) false "hi")
       (bot_with ["x"]))
  /\ context_lines (world 10 ApiRaises) (says alice "hi" true) (bot_with ["a"; "b"])
     = (Returned ["a"; "b"], bot_with ["a"; "b"]).
Proof.
  split.
  - apply (proj1 (context_lines_spec (world 10 ApiRaises) (says alice "hi" true)
                    (set_db (BotDatabase.log_message 10 (Some 7) "Alice" None (Some 5)
                               (Some 1) false "hi") (bot_with ["x"])) 5 eq_refl));
      [reflexivity | vm_compute; discriminate].
  - apply (proj2 (context_lines_spec (world 10 ApiRaises) (says alice "hi" true)
                    (bot_with ["a"; "b"]) 5 eq_refl)).
    right. reflexivity.
Defined.

Lemma completion_failure_apology_witness :
  exists s',
    _generate_response (world 10 ApiRaises) (says alice "<@123> hi" true)
      (bot_with ["Alice: <@123> hi"])
    = (Returned tt, s')
    /\ sent s' = [] ++ [(5, "Sorry, there was an error processing your request.")]
    /\ global_message_memory s'
       = ["Alice: <@123> hi"] ++ ["Bot: Sorry, there was an error processing your request."]
    /\ db s' = BotDatabase.empty
    /\ length (requests s') = 1%nat.
Proof.
  apply (completion_failure_apology (world 10 ApiRaises) (says alice "<@123> hi" true)
           (bot_with ["Alice: <@123> hi"]) 5 floppa); [reflexivity | reflexivity |].
  left. reflexivity.
Defined.

Lemma recent_transcript_spec_witness :
  0 <= 1
  /\ exists sel rest,
    BotDatabase.get_recent_messages_for_channel 5 1 two_messages
    = map BotDatabase.render_line sel
    /\ length (BotDatabase.get_recent_messages_for_channel 5 1 two_messages) = length sel
    /\ (length sel <= Z.to_nat 1)%nat
    /\ sel ++ rest
       ≡ₚ filter (fun r => BotDatabase.msg_channel_id r = Some 5)
            (BotDatabase.messages two_messages)
    /\ length sel
       = (Z.to_nat 1
          `min` length (filter (fun r => BotDatabase.msg_channel_id r = Some 5%Z)
                          (BotDatabase.messages two_messages)))%nat
    /\ (forall old new, old ∈ rest -> new ∈ sel ->
          BotDatabase.msg_ts old <= BotDatabase.msg_ts new)
    /\ StronglySorted (fun a b => BotDatabase.msg_ts a <= BotDatabase.msg_ts b) sel
    /\ (forall r, BotDatabase.render_line r
                  = (if BotDatabase.msg_is_bot r then "Bot" else BotDatabase.msg_username r)
                    +:+ ": " +:+ BotDatabase.msg_content r).
Proof.
  split; [lia |]. apply (recent_transcript_spec 5 1 two_messages). lia.
Defined.

(** * Further properties of the handlers *)

(** ** What every step of the handlers keeps *)

Lemma M_bind_assoc {A B C} (m : M A) (f : A -> M B) (g : B -> M C) (s : bot_state) :
  ((m ≫= f) ≫= g) s = (m ≫= (fun a => f a ≫= g)) s.
Proof.
  unfold mbind, M_bind. destruct (m s) as [[a | x] s1]; reflexivity.
Qed.

Section Keeps.

Variable R : relation bot_state.
Hypothesis R_refl : forall s, R s s.
Hypothesis R_trans : forall s1 s2 s3, R s1 s2 -> R s2 s3 -> R s1 s3.

Lemma keeps_ret {A} (a : A) : keeps R (mret a).
Proof. intros s. apply R_refl. Qed.

Lemma keeps_raise {A} (x : exn) : keeps R (@raise A x).
Proof. intros s. apply R_refl. Qed.

Lemma keeps_get : keeps R get_state.
Proof. intros s. apply R_refl. Qed.

Lemma keeps_modify (f : bot_state -> bot_state) :
  (forall s, R s (f s)) -> keeps R (modify f).
Proof. intros Hf s. apply Hf. Qed.

Lemma keeps_bind {A B} (m : M A) (f : A -> M B) :
  keeps R m -> (forall a, keeps R (f a)) -> keeps R (m ≫= f).
Proof.
  intros Hm Hf s. specialize (Hm s). unfold mbind, M_bind.
  destruct (m s) as [[a | x] s1]; cbn [snd] in *; [| exact Hm].
  eapply R_trans; [exact Hm | apply Hf].
Qed.

Lemma keeps_try_except {A} (m : M A) (h : exn -> M A) :
  keeps R m -> (forall x, keeps R (h x)) -> keeps R (try_except m h).
Proof.
  intros Hm Hh s. specialize (Hm s). unfold try_except.
  destruct (m s) as [[a | x] s1]; cbn [snd] in *; [exact Hm |].
  eapply R_trans; [exact Hm | apply Hh].
Qed.

Lemma keeps_db_write (fails : bool) (f : BotDatabase.database -> BotDatabase.database) :
  (forall s, R s (set_db f s)) -> keeps R (db_write fails f).
Proof.
  intros Hf. unfold db_write. destruct fails; [apply keeps_raise | now apply keeps_modify].
Qed.

Lemma keeps_db_read {A} (fails : bool) (f : BotDatabase.database -> A) :
  keeps R (db_read fails f).
Proof.
  unfold db_read. destruct fails; [apply keeps_raise |].
  apply keeps_bind; [apply keeps_get | intros s; apply keeps_ret].
Qed.

Lemma keeps_context_lines e message : keeps R (context_lines e message).
Proof.
  unfold context_lines. apply keeps_bind.
  - apply keeps_try_except; [| intros _; apply keeps_ret].
    destruct (channel message); [apply keeps_db_read | apply keeps_ret].
  - intros [| l ls]; [| apply keeps_ret].
    apply keeps_bind; [apply keeps_get | intros s; apply keeps_ret].
Qed.

Hypothesis R_upsert : forall user_id nm disc b now im imn s,
  R s (set_db (BotDatabase.upsert_user user_id nm disc b now im imn) s).
Hypothesis R_log : forall ts user_id nm g c m b text s,
  R s (set_db (BotDatabase.log_message ts user_id nm g c m b text) s).
Hypothesis R_sent : forall c text s, R s (add_sent c text s).
Hypothesis R_request : forall r s, R s (add_request r s).
Hypothesis R_reply_line : forall line s, R s (set_memory (fun l => l ++ [line]) s).
Hypothesis R_user_line : forall line, keeps R (memory_append line ≫= fun _ => memory_trim).

Lemma keeps_send ch text : keeps R (send ch text).
Proof.
  unfold send. destruct ch; [apply keeps_modify; intros s; apply R_sent | apply keeps_raise].
Qed.

Lemma keeps_chat e r : keeps R (chat_completions_create e r).
Proof.
  unfold chat_completions_create. apply keeps_bind.
  - apply keeps_modify. intros s. apply R_request.
  - intros _. destruct (completion e) as [| [text |]];
      [apply keeps_raise | apply keeps_ret | apply keeps_raise].
Qed.

Lemma keeps_memory_append line : keeps R (memory_append line).
Proof. apply keeps_modify. intros s. apply R_reply_line. Qed.

Lemma keeps_generate_response e message : keeps R (_generate_response e message).
Proof.
  unfold _generate_response.
  apply keeps_bind; [apply keeps_context_lines | intros lines].
  apply keeps_bind; [apply keeps_get | intros s0].
  apply keeps_bind;
    [destruct (bot_user s0); [apply keeps_ret | apply keeps_raise] | intros me].
  apply keeps_try_except.
  - apply keeps_bind; [apply keeps_chat | intros text].
    apply keeps_bind; [apply keeps_send | intros _].
    apply keeps_bind; [apply keeps_memory_append | intros _].
    apply keeps_try_except; [| intros _; apply keeps_ret].
    apply keeps_bind; [| intros _]; apply keeps_db_write; intros s; [apply R_upsert | apply R_log].
  - intros _. apply keeps_bind; [apply keeps_send | intros _; apply keeps_memory_append].
Qed.

Lemma keeps_handle_message e message : keeps R (_handle_message e message).
Proof.
  intros s. unfold _handle_message.
  unfold mbind at 1. unfold M_bind at 1. unfold get_state at 1. cbv beta iota.
  destruct (bot_user s) as [me |]; [| apply R_refl].
  destruct (user_eq (author message) me); [apply R_refl |].
  revert s. apply keeps_bind.
  - apply keeps_try_except; [| intros _; apply keeps_ret].
    apply keeps_bind; [| intros _]; apply keeps_db_write; intros s; [apply R_upsert | apply R_log].
  - intros _ s. rewrite <- M_bind_assoc. revert s.
    apply keeps_bind; [apply R_user_line | intros _].
    destruct (mentions_bot message); [apply keeps_generate_response | apply keeps_ret].
Qed.

Lemma keeps_run events s : R s (run events s).
Proof.
  revert s. induction events as [| [e message] events IH]; intros s; cbn [run].
  - apply R_refl.
  - eapply R_trans; [apply keeps_handle_message | apply IH].
Qed.

End Keeps.

(** The state after the line of a message is appended and the memory
    trimmed. *)
Lemma user_line_run line s :
  snd ((memory_append line ≫= fun _ => memory_trim) s)
  = set_memory
      (fun l => if (100 <? length (l ++ [line]))%nat then drop 1 (l ++ [line]) else l ++ [line])
      s.
Proof.
  unfold_M. cbn [global_message_memory set_memory].
  destruct (100 <? length (global_message_memory s ++ [line]))%nat eqn:E;
    cbn [snd]; unfold set_memory; cbn [global_message_memory bot_user bot_personality db sent requests];
    rewrite ?E; reflexivity.
Qed.

(** ** The configuration *)

(** The handlers never assign [self.bot.user] or [self.bot_personality]:
    after any sequence of messages, whatever fails on the way, both are
    what they were. *)
Theorem configuration_never_changes events s :
  bot_user (run events s) = bot_user s
  /\ bot_personality (run events s) = bot_personality s.
Proof.
  apply (keeps_run
           (fun s s' => bot_user s' = bot_user s /\ bot_personality s' = bot_personality s)).
  - intros; split; reflexivity.
  - intros s1 s2 s3 [H1 H2] [H3 H4]. split; congruence.
  - intros; split; reflexivity.
  - intros; split; reflexivity.
  - intros; split; reflexivity.
  - intros; split; reflexivity.
  - intros; split; reflexivity.
  - intros line s0. rewrite user_line_run. split; reflexivity.
Qed.

(** Before the bot has logged in ([self.bot.user] is [None]) every message
    is dropped: no sequence of messages changes anything. *)
Theorem nothing_happens_before_login events s :
  bot_user s = None -> run events s = s.
Proof.
  intros Hnone. induction events as [| [e message] events IH]; cbn [run]; [reflexivity |].
  assert (Hstep : _handle_message e message s = (Returned tt, s)).
  { unfold _handle_message, mbind, M_bind, get_state. now rewrite Hnone. }
  rewrite Hstep. exact IH.
Qed.

Lemma nothing_happens_before_login_witness :
  run [(world 10 (ApiReplies (Some "hi")), says alice "<@123> hello" true)] before_login
  = before_login.
Proof. apply nothing_happens_before_login. reflexivity. Defined.

(** ** The memory *)

(** The memory never gets shorter: the only line ever removed is the oldest
    one, and only right after a line was appended. *)
Theorem memory_never_shrinks events s :
  (length (global_message_memory s) <= length (global_message_memory (run events s)))%nat.
Proof.
  apply (keeps_run
           (fun s s' => (length (global_message_memory s)
                         <= length (global_message_memory s'))%nat)).
  - intros; lia.
  - intros; lia.
  - intros; cbn; lia.
  - intros; cbn; lia.
  - intros; cbn; lia.
  - intros; cbn; lia.
  - intros line s0. cbn [global_message_memory set_memory]. rewrite length_app. lia.
  - intros line s0. rewrite user_line_run. cbn [global_message_memory set_memory].
    destruct (100 <? _)%nat eqn:E.
    + apply Nat.ltb_lt in E. rewrite length_drop. rewrite length_app in *. cbn [length] in *. lia.
    + rewrite length_app. lia.
Qed.

(** ** The tables *)

Lemma log_message_ids ts user_id nm g c m b text d :
  ids_consecutive d ->
  ids_consecutive (BotDatabase.log_message ts user_id nm g c m b text d).
Proof.
  intros Hd i r. unfold BotDatabase.log_message. cbn [BotDatabase.messages].
  intros Hi. apply lookup_app_Some in Hi as [Hi | [Hlen Hi]].
  - now apply Hd.
  - apply list_lookup_singleton_Some in Hi as [Hi <-].
    cbn [BotDatabase.msg_id]. lia.
Qed.

(** The [messages] table is append-only: after any sequence of messages,
    whatever fails on the way, the rows stored before are still there,
    unchanged and in the same positions, followed by the new ones; and when
    the [id] of each row was its position, counted from 1, it still is. *)
Theorem messages_are_append_only events s :
  BotDatabase.messages (db s) `prefix_of` BotDatabase.messages (db (run events s))
  /\ (ids_consecutive (db s) -> ids_consecutive (db (run events s))).
Proof.
  apply (keeps_run
           (fun s s' =>
              BotDatabase.messages (db s) `prefix_of` BotDatabase.messages (db s')
              /\ (ids_consecutive (db s) -> ids_consecutive (db s')))).
  - intros s0. split; [reflexivity | tauto].
  - intros s1 s2 s3 [H1 H2] [H3 H4]. split; [now transitivity (BotDatabase.messages (db s2)) | tauto].
  - intros; split; [reflexivity | tauto].
  - intros ts user_id nm g c m b text s0. cbn [db set_db]. split.
    + unfold BotDatabase.log_message. cbn [BotDatabase.messages]. now apply prefix_app_r.
    + apply log_message_ids.
  - intros; split; [reflexivity | tauto].
  - intros; split; [reflexivity | tauto].
  - intros; split; [reflexivity | tauto].
  - intros line s0. rewrite user_line_run. split; [reflexivity | tauto].
Qed.

Lemma messages_are_append_only_witness :
  ids_consecutive
    (db (run [(world 10 (ApiReplies (Some "hi")), says alice "<@123> hello" true)]
           (bot_with []))).
Proof.
  apply (proj2 (messages_are_append_only
                  [(world 10 (ApiReplies (Some "hi")), says alice "<@123> hello" true)]
                  (bot_with []))).
  intros i r Hi. destruct i; discriminate Hi.
Defined.

(** No participant is ever removed from [users]: after any sequence of
    messages, whatever fails on the way, every participant recorded before
    is still recorded, with the same first-seen time and with counters
    that have not decreased. *)
Theorem participants_are_kept events s user_id r :
  BotDatabase.users (db s) !! user_id = Some r ->
  exists r',
    BotDatabase.users (db (run events s)) !! user_id = Some r'
    /\ BotDatabase.first_seen_at r' = BotDatabase.first_seen_at r
    /\ BotDatabase.message_count r <= BotDatabase.message_count r'
    /\ BotDatabase.mention_count r <= BotDatabase.mention_count r'.
Proof.
  revert user_id r.
  apply (keeps_run
           (fun s s' => forall user_id r,
              BotDatabase.users (db s) !! user_id = Some r ->
              exists r',
                BotDatabase.users (db s') !! user_id = Some r'
                /\ BotDatabase.first_seen_at r' = BotDatabase.first_seen_at r
                /\ BotDatabase.message_count r <= BotDatabase.message_count r'
                /\ BotDatabase.mention_count r <= BotDatabase.mention_count r')).
  - intros s0 k r Hr. exists r. repeat split; [exact Hr | lia | lia].
  - intros s1 s2 s3 H12 H23 k r Hr.
    destruct (H12 k r Hr) as (r2 & Hr2 & Hf2 & Hm2 & Hn2).
    destruct (H23 k r2 Hr2) as (r3 & Hr3 & Hf3 & Hm3 & Hn3).
    exists r3. repeat split; [exact Hr3 | congruence | lia | lia].
  - intros id nm disc b now im imn s0 k r Hr. cbn [db set_db].
    unfold BotDatabase.upsert_user. cbn [BotDatabase.users].
    destruct (decide (k = id)) as [-> |Hne].
    + rewrite lookup_insert_eq, Hr. eexists. split; [reflexivity |].
      cbn [BotDatabase.first_seen_at BotDatabase.message_count BotDatabase.mention_count].
      destruct im, imn; cbn [Z.b2z]; repeat split; lia.
    + rewrite lookup_insert_ne by congruence.
      exists r. repeat split; [exact Hr | lia | lia].
  - intros ts id nm g c m b text s0 k r Hr. exists r. repeat split; [exact Hr | lia | lia].
  - intros c text s0 k r Hr. exists r. repeat split; [exact Hr | lia | lia].
  - intros q s0 k r Hr. exists r. repeat split; [exact Hr | lia | lia].
  - intros line s0 k r Hr. exists r. repeat split; [exact Hr | lia | lia].
  - intros line s0 k r Hr. rewrite user_line_run. exists r. repeat split; [exact Hr | lia | lia].
Qed.

Lemma participants_are_kept_witness :
  exists r',
    BotDatabase.users
      (db (run [(world 20 (ApiReplies (Some "hi")), says alice "<@123> hello" true)]
             (set_db (BotDatabase.upsert_user 7 "Alice" None false 10 true false)
                (bot_with [])))) !! 7
    = Some r'
    /\ BotDatabase.first_seen_at r' = 10
    /\ 1 <= BotDatabase.message_count r'
    /\ 0 <= BotDatabase.mention_count r'.
Proof.
  apply (participants_are_kept
           [(world 20 (ApiReplies (Some "hi")), says alice "<@123> hello" true)]
           (set_db (BotDatabase.upsert_user 7 "Alice" None false 10 true false) (bot_with []))
           7
           {| BotDatabase.username := "Alice";
              BotDatabase.discriminator := None;
              BotDatabase.is_bot := false;
              BotDatabase.first_seen_at := 10;
              BotDatabase.last_seen_at := 10;
              BotDatabase.message_count := 1;
              BotDatabase.mention_count := 0 |}).
  reflexivity.
Defined.

(** ** Exceptions *)

(** The response handler for a message without a channel: the request is
    made, and both the reply and the apology fail to be sent. *)
Lemma generate_response_no_channel e message s me :
  channel message = None ->
  bot_user s = Some me ->
  let clean := clean_message (uid me) (content message) in
  let req :=
    {| model := default "gpt-4o-mini" (openai_model e);
       system_content :=
         _build_prompt s (name (author message)) clean
           (Py.join Py.LF (Py.last_n 100 (global_message_memory s)));
       user_content := clean;
       max_tokens := 500 |} in
  _generate_response e message s = (Raised AttributeError, add_request req s).
Proof.
  intros Hc Hme. cbv zeta.
  unfold _generate_response, context_lines. rewrite Hc. unfold_M. rewrite Hme. unfold_M.
  destruct (completion e) as [| [text |]]; reflexivity.
Qed.

(** A message that has a channel, or that does not mention the bot, never
    makes [_handle_message] raise: whichever database calls fail and
    whatever the completion API does, the handler returns. *)
Theorem handler_returns e message s :
  is_Some (channel message) \/ mentions_bot message = false ->
  fst (_handle_message e message s) = Returned tt.
Proof.
  intros Hcase.
  destruct (bot_user s) as [me |] eqn:Hme.
  2: { unfold _handle_message, mbind, M_bind, get_state. now rewrite Hme. }
  destruct (user_eq (author message) me) eqn:Hown.
  { unfold _handle_message, mbind, M_bind, get_state. now rewrite Hme, Hown. }
  rewrite (handle_message_run e message s me Hme Hown). cbv zeta.
  destruct (mentions_bot message) eqn:Hm; [| reflexivity].
  destruct Hcase as [[c Hc] | Hf]; [| discriminate Hf].
  match goal with
  | |- context [_generate_response e message ?t] => set (t0 := t)
  end.
  assert (Hu : bot_user t0 = Some me).
  { subst t0. destruct (upsert_in_fails e); [| destruct (log_in_fails e)];
      cbn [global_message_memory set_memory set_db bot_user];
      destruct (100 <? _)%nat; exact Hme. }
  destruct (context_lines_returns e message t0) as [lines Hlines].
  now rewrite (generate_response_run e message t0 c me lines Hc Hu Hlines).
Qed.

Lemma handler_returns_witness :
  fst (_handle_message (world 10 ApiRaises) (says alice "<@123> hello" true) (bot_with []))
  = Returned tt.
Proof. apply handler_returns. left. eexists. reflexivity. Defined.

(** A message that mentions the bot but has no channel makes the handler
    raise [AttributeError], after the message was logged, its line appended
    to the memory and the completion API called once: nothing is sent and
    no reply line is appended. *)
Theorem mention_without_channel_raises e message s me :
  bot_user s = Some me ->
  user_eq (author message) me = false ->
  mentions_bot message = true ->
  channel message = None ->
  let s' := snd (_handle_message e message s) in
  let appended := global_message_memory s ++ [line_of message] in
  fst (_handle_message e message s) = Raised AttributeError
  /\ sent s' = sent s
  /\ length (requests s') = S (length (requests s))
  /\ global_message_memory s'
     = (if (100 <? length appended)%nat then drop 1 appended else appended).
Proof.
  intros Hme Hown Hm Hc. cbv zeta.
  rewrite (handle_message_run e message s me Hme Hown). cbv zeta. rewrite Hm.
  match goal with
  | |- context [_generate_response e message ?t] => set (t0 := t)
  end.
  assert (Ht : bot_user t0 = Some me
               /\ sent t0 = sent s
               /\ requests t0 = requests s
               /\ global_message_memory t0
                  = (if (100 <? length (global_message_memory s ++ [line_of message]))%nat
                     then drop 1 (global_message_memory s ++ [line_of message])
                     else global_message_memory s ++ [line_of message])).
  { subst t0. unfold line_of.
    destruct (upsert_in_fails e); [| destruct (log_in_fails e)];
      cbn [global_message_memory set_memory set_db bot_user sent requests];
      destruct (100 <? _)%nat;
      cbn [global_message_memory set_memory set_db bot_user sent requests];
      repeat split; assumption. }
  clearbody t0. destruct Ht as (Hu & Hs & Hr & Hmem).
  rewrite (generate_response_no_channel e message t0 me Hc Hu).
  cbn [fst snd sent requests global_message_memory add_request].
  rewrite length_app, Hr. cbn [length].
  repeat split; [exact Hs | lia | exact Hmem].
Qed.

Lemma mention_without_channel_raises_witness :
  fst (_handle_message (world 10 (ApiReplies (Some "hi")))
         {| mid := 1; author := alice; content := "<@123> hello"; channel := None;
            guild := None; mentions_bot := true |}
         (bot_with []))
  = Raised AttributeError.
Proof.
  apply (mention_without_channel_raises (world 10 (ApiReplies (Some "hi")))
           {| mid := 1; author := alice; content := "<@123> hello"; channel := None;
              guild := None; mentions_bot := true |}
           (bot_with []) floppa); reflexivity.
Defined.

(** ** Messages that do not mention the bot *)

Lemma last_n_short {A} (n : nat) (l : list A) :
  (length l <= n)%nat -> Py.last_n n l = l.
Proof.
  intros H. unfold Py.last_n. replace (length l - n)%nat with 0%nat by lia. reflexivity.
Qed.

Lemma last_n_app_last_n {A} (n : nat) (a b : list A) :
  Py.last_n n (Py.last_n n a ++ b) = Py.last_n n (a ++ b).
Proof.
  unfold Py.last_n. rewrite !length_app, length_drop.
  destruct (decide (length a <= n)%nat) as [Hle | Hgt].
  - replace (length a - n)%nat with 0%nat by lia. cbn [drop].
    now rewrite Nat.sub_0_r.
  - replace (length a - (length a - n) + length b - n)%nat with (length b) by lia.
    replace (length a + length b - n)%nat with ((length a - n) + length b)%nat by lia.
    rewrite <- (drop_drop (a ++ b) (length b) (length a - n)).
    now rewrite (drop_app_le a b (length a - n)) by lia.
Qed.

Lemma trim_is_last_100 (l : list string) (x : string) :
  (length l <= 100)%nat ->
  (if (100 <? length (l ++ [x]))%nat then drop 1 (l ++ [x]) else l ++ [x])
  = Py.last_n 100 (l ++ [x]).
Proof.
  intros Hl. unfold Py.last_n. rewrite length_app. cbn [length].
  destruct (100 <? length l + 1)%nat eqn:E.
  - apply Nat.ltb_lt in E. now replace (length l + 1 - 100)%nat with 1%nat by lia.
  - apply Nat.ltb_ge in E. now replace (length l + 1 - 100)%nat with 0%nat by lia.
Qed.

(** One message that does not mention the bot. *)
Lemma unmentioned_step e message s :
  mentions_bot message = false ->
  exists s1,
    _handle_message e message s = (Returned tt, s1)
    /\ sent s1 = sent s
    /\ requests s1 = requests s
    /\ bot_user s1 = bot_user s
    /\ global_message_memory s1
       = match bot_user s with
         | Some me =>
             if user_eq (author message) me then global_message_memory s
             else
               let appended := global_message_memory s ++ [line_of message] in
               if (100 <? length appended)%nat then drop 1 appended else appended
         | None => global_message_memory s
         end.
Proof.
  intros Hm.
  destruct (bot_user s) as [me |] eqn:Hme.
  2: { exists s. unfold _handle_message, mbind, M_bind, get_state. now rewrite Hme. }
  destruct (user_eq (author message) me) eqn:Hown.
  { exists s. unfold _handle_message, mbind, M_bind, get_state. now rewrite Hme, Hown. }
  rewrite (handle_message_run e message s me Hme Hown). cbv zeta. rewrite Hm.
  eexists. split; [reflexivity |]. unfold line_of.
  destruct (upsert_in_fails e); [| destruct (log_in_fails e)];
    cbn [global_message_memory set_memory set_db bot_user sent requests];
    destruct (100 <? _)%nat;
    cbn [global_message_memory set_memory set_db bot_user sent requests];
    repeat split; assumption.
Qed.

(** The bot speaks only when spoken to: a sequence of messages none of
    which mentions the bot makes no call to the completion API and sends
    nothing to any channel, whatever the database does. *)
Theorem silent_unless_mentioned events s :
  Forall (fun ev => mentions_bot (snd ev) = false) events ->
  sent (run events s) = sent s /\ requests (run events s) = requests s.
Proof.
  intros Hall. revert s.
  induction Hall as [| [e message] events Hm _ IH]; intros s; cbn [run]; [now split |].
  cbn [snd] in Hm.
  destruct (unmentioned_step e message s Hm) as (s1 & Hrun & Hs & Hr & _).
  rewrite Hrun. cbn [snd]. destruct (IH s1) as [IHs IHr]. split; congruence.
Qed.

Lemma silent_unless_mentioned_witness :
  sent (run [(world 10 ApiRaises, says alice "hello" false);
             (world 11 ApiRaises, says alice "anyone?" false)] (bot_with []))
  = []
  /\ requests (run [(world 10 ApiRaises, says alice "hello" false);
                    (world 11 ApiRaises, says alice "anyone?" false)] (bot_with []))
     = [].
Proof.
  apply (silent_unless_mentioned
           [(world 10 ApiRaises, says alice "hello" false);
            (world 11 ApiRaises, says alice "anyone?" false)] (bot_with [])).
  repeat constructor.
Defined.

(** As long as the bot is not mentioned the memory is a sliding window: if
    it starts with at most 100 lines, then after any sequence of messages
    none of which mentions the bot it holds the last 100 of its former
    lines followed by the lines of the messages not written by the bot
    itself, in their order; in particular at most 100 lines. *)
Theorem memory_is_last_100_heard events s me :
  bot_user s = Some me ->
  Forall (fun ev => mentions_bot (snd ev) = false) events ->
  (length (global_message_memory s) <= 100)%nat ->
  global_message_memory (run events s)
  = Py.last_n 100 (global_message_memory s ++ heard me events)
  /\ (length (global_message_memory (run events s)) <= 100)%nat.
Proof.
  intros Hme Hall Hlen.
  cut (global_message_memory (run events s)
       = Py.last_n 100 (global_message_memory s ++ heard me events)).
  { intros ->. split; [reflexivity |]. rewrite last_n_length. lia. }
  revert s Hme Hlen.
  induction Hall as [| [e message] events Hm _ IH]; intros s Hme Hlen; cbn [run].
  - unfold heard. rewrite filter_nil. cbn [map]. rewrite app_nil_r.
    symmetry. now apply last_n_short.
  - cbn [snd] in Hm.
    destruct (unmentioned_step e message s Hm) as (s1 & Hrun & _ & _ & Hu & Hmem).
    rewrite Hrun. cbn [snd]. rewrite Hme in Hmem, Hu.
    unfold heard. rewrite filter_cons. cbn [snd]. fold (heard me events).
    destruct (user_eq (author message) me) eqn:Hown.
    + rewrite decide_False by discriminate.
      rewrite (IH s1 Hu) by (rewrite Hmem; exact Hlen). now rewrite Hmem.
    + rewrite decide_True by reflexivity. cbn [map snd].
      cbv zeta in Hmem. rewrite trim_is_last_100 in Hmem by exact Hlen.
      rewrite (IH s1 Hu) by (rewrite Hmem, last_n_length; lia).
      rewrite Hmem, last_n_app_last_n. now rewrite <- app_assoc.
Qed.

Lemma memory_is_last_100_heard_witness :
  global_message_memory
    (run [(world 10 ApiRaises, says alice "hello" false);
          (world 11 ApiRaises, says floppa "ignored" false);
          (world 12 ApiRaises, says alice "anyone?" false)] (bot_with ["x"]))
  = Py.last_n 100 (["x"] ++ ["Alice: hello"; "Alice: anyone?"])
  /\ (length (global_message_memory
                (run [(world 10 ApiRaises, says alice "hello" false);
                      (world 11 ApiRaises, says floppa "ignored" false);
                      (world 12 ApiRaises, says alice "anyone?" false)] (bot_with ["x"])))
      <= 100)%nat.
Proof.
  apply (memory_is_last_100_heard
           [(world 10 ApiRaises, says alice "hello" false);
            (world 11 ApiRaises, says floppa "ignored" false);
            (world 12 ApiRaises, says alice "anyone?" false)] (bot_with ["x"]) floppa).
  - reflexivity.
  - repeat constructor.
  - cbn. lia.
Defined.

(** ** More on the transcript of a channel *)

Section Transcript.

Import BotDatabase.

Lemma filter_in_channel_snoc c rows r :
  filter (fun x => in_channel c x = true) (rows ++ [r])
  = filter (fun x => in_channel c x = true) rows
      ++ (if in_channel c r then [r] else []).
Proof.
  rewrite filter_app. f_equal.
  rewrite filter_cons, filter_nil.
  destruct (in_channel c r); [now rewrite decide_True | now rewrite decide_False].
Qed.

Lemma order_by_ts_desc_snoc rows r :
  order_by_ts_desc (rows ++ [r]) = insert_desc r (order_by_ts_desc rows).
Proof. unfold order_by_ts_desc. now rewrite foldl_snoc. Qed.

Lemma insert_desc_newest r l :
  Forall (fun x => msg_ts x <= msg_ts r) l -> insert_desc r l = r :: l.
Proof.
  intros Hl. destruct l as [| x l]; [reflexivity |].
  apply Forall_cons in Hl as [Hx _]. cbn [insert_desc].
  apply Z.leb_le in Hx. now rewrite Hx.
Qed.

Lemma transcript_length c limit d :
  0 <= limit ->
  length (get_recent_messages_for_channel c limit d)
  = (Z.to_nat limit
     `min` length (filter (fun x => in_channel c x = true) (messages d)))%nat.
Proof.
  intros Hlimit. unfold get_recent_messages_for_channel, select_recent, sql_limit.
  destruct (limit <? 0) eqn:E; [apply Z.ltb_lt in E; lia |].
  rewrite length_map, length_reverse, length_take.
  now rewrite (Permutation_length (order_by_ts_desc_perm _)).
Qed.

End Transcript.

(** The rows selected right after a message was logged for the channel at
    a time not earlier than any message stored for it: that message first. *)
Lemma select_recent_logged ts user_id nm g c m b text limit d :
  0 < limit ->
  Forall (fun r => BotDatabase.in_channel c r = true -> BotDatabase.msg_ts r <= ts)
    (BotDatabase.messages d) ->
  BotDatabase.select_recent c limit
    (BotDatabase.log_message ts user_id nm g (Some c) m b text d)
  = {| BotDatabase.msg_id := Z.of_nat (length (BotDatabase.messages d)) + 1;
       BotDatabase.msg_ts := ts;
       BotDatabase.msg_user_id := user_id;
       BotDatabase.msg_username := nm;
       BotDatabase.msg_guild_id := g;
       BotDatabase.msg_channel_id := Some c;
       BotDatabase.msg_message_id := m;
       BotDatabase.msg_is_bot := b;
       BotDatabase.msg_content := text |}
    :: take (Z.to_nat limit - 1)
         (BotDatabase.order_by_ts_desc
            (filter (fun x => BotDatabase.in_channel c x = true) (BotDatabase.messages d))).
Proof.
  intros Hlimit Hts.
  unfold BotDatabase.select_recent, BotDatabase.sql_limit, BotDatabase.log_message.
  cbn [BotDatabase.messages].
  destruct (limit <? 0) eqn:E; [apply Z.ltb_lt in E; lia |].
  rewrite filter_in_channel_snoc.
  match goal with
  | |- context [if BotDatabase.in_channel c ?r then _ else _] =>
      replace (BotDatabase.in_channel c r) with true
        by (unfold BotDatabase.in_channel; cbn [BotDatabase.msg_channel_id];
            now rewrite Z.eqb_refl)
  end.
  rewrite order_by_ts_desc_snoc.
  rewrite insert_desc_newest.
  - destruct (Z.to_nat limit) as [| k] eqn:Hk; [lia |].
    cbn [take]. now replace (S k - 1)%nat with k by lia.
  - cbn [BotDatabase.msg_ts].
    rewrite (order_by_ts_desc_perm _).
    apply list.Forall_forall. intros r Hr.
    apply list_elem_of_filter in Hr as [Hin Hmem].
    rewrite list.Forall_forall in Hts. now apply Hts.
Qed.

Lemma last_logged_line ts user_id nm g c m b text limit d :
  0 < limit ->
  Forall (fun r => BotDatabase.in_channel c r = true -> BotDatabase.msg_ts r <= ts)
    (BotDatabase.messages d) ->
  last (BotDatabase.get_recent_messages_for_channel c limit
          (BotDatabase.log_message ts user_id nm g (Some c) m b text d))
  = Some ((if b then "Bot" else nm) +:+ ": " +:+ text).
Proof.
  intros Hlimit Hts. unfold BotDatabase.get_recent_messages_for_channel.
  rewrite select_recent_logged by assumption.
  rewrite reverse_cons, map_app. cbn [map]. now rewrite last_snoc.
Qed.

(** A message logged for a channel at a time not earlier than any message
    stored for that channel is the last line of the transcript read next,
    under its stored name, or under "Bot" when it is flagged as the bot's,
    and the lines before it are those of the newest [limit - 1] messages
    stored before. *)
Theorem logged_message_ends_transcript ts user_id nm g c m b text limit d :
  0 < limit ->
  Forall (fun r => BotDatabase.in_channel c r = true -> BotDatabase.msg_ts r <= ts)
    (BotDatabase.messages d) ->
  BotDatabase.get_recent_messages_for_channel c limit
    (BotDatabase.log_message ts user_id nm g (Some c) m b text d)
  = BotDatabase.get_recent_messages_for_channel c (limit - 1) d
      ++ [(if b then "Bot" else nm) +:+ ": " +:+ text].
Proof.
  intros Hlimit Hts. unfold BotDatabase.get_recent_messages_for_channel at 1.
  rewrite select_recent_logged by assumption.
  rewrite reverse_cons, map_app. cbn [map]. f_equal.
  unfold BotDatabase.get_recent_messages_for_channel, BotDatabase.select_recent,
    BotDatabase.sql_limit.
  destruct (limit - 1 <? 0) eqn:E; [apply Z.ltb_lt in E; lia |].
  now replace (Z.to_nat (limit - 1)) with (Z.to_nat limit - 1)%nat by lia.
Qed.

Lemma logged_message_ends_transcript_witness :
  BotDatabase.get_recent_messages_for_channel 5 100
    (BotDatabase.log_message 11 (Some 123) "Floppa" None (Some 5) None true "again"
       two_messages)
  = BotDatabase.get_recent_messages_for_channel 5 (100 - 1) two_messages
      ++ ["Bot: again"].
Proof.
  apply (logged_message_ends_transcript 11 (Some 123) "Floppa" None 5 None true "again"
           100 two_messages); [lia |].
  repeat constructor; vm_compute; intros; congruence.
Defined.

(** Transcripts are per channel: logging a message for another channel, or
    for no channel, and recording a participant leave the transcript of a
    channel as it was. *)
Theorem transcript_ignores_other_channels c limit d :
  (forall ts user_id nm g c' m b text,
      c' <> Some c ->
      BotDatabase.get_recent_messages_for_channel c limit
        (BotDatabase.log_message ts user_id nm g c' m b text d)
      = BotDatabase.get_recent_messages_for_channel c limit d)
  /\ (forall user_id nm disc b now im imn,
        BotDatabase.get_recent_messages_for_channel c limit
          (BotDatabase.upsert_user user_id nm disc b now im imn d)
        = BotDatabase.get_recent_messages_for_channel c limit d).
Proof.
  split; [| reflexivity].
  intros ts user_id nm g c' m b text Hc.
  unfold BotDatabase.get_recent_messages_for_channel, BotDatabase.select_recent,
    BotDatabase.log_message.
  cbn [BotDatabase.messages]. rewrite filter_in_channel_snoc.
  match goal with
  | |- context [if BotDatabase.in_channel c ?r then _ else _] =>
      replace (BotDatabase.in_channel c r) with false; [now rewrite app_nil_r |]
  end.
  unfold BotDatabase.in_channel. cbn [BotDatabase.msg_channel_id].
  destruct c' as [k |]; [| reflexivity].
  symmetry. apply Z.eqb_neq. congruence.
Qed.

Lemma transcript_ignores_other_channels_witness :
  BotDatabase.get_recent_messages_for_channel 5 100
    (BotDatabase.log_message 12 (Some 7) "Alice" None (Some 6) (Some 3) false "elsewhere"
       two_messages)
  = BotDatabase.get_recent_messages_for_channel 5 100 two_messages.
Proof.
  apply (proj1 (transcript_ignores_other_channels 5 100 two_messages)). congruence.
Defined.

(** ** Responses *)

(** The state in which [_handle_message] decides whether to respond, field
    by field. *)
Lemma before_response e message s me :
  bot_user s = Some me ->
  user_eq (author message) me = false ->
  exists t,
    _handle_message e message s
    = (if mentions_bot message then _generate_response e message t else (Returned tt, t))
    /\ bot_user t = Some me
    /\ bot_personality t = bot_personality s
    /\ sent t = sent s
    /\ requests t = requests s
    /\ global_message_memory t
       = (let appended := global_message_memory s ++ [line_of message] in
          if (100 <? length appended)%nat then drop 1 appended else appended)
    /\ db t
       = (let u := author message in
          if upsert_in_fails e then db s
          else
            let d1 :=
              BotDatabase.upsert_user (uid u) (name u) (user_discriminator u) (bot u)
                (time_in e) true (mentions_bot message) (db s) in
            if log_in_fails e then d1
            else
              BotDatabase.log_message (time_in e) (Some (uid u)) (name u) (guild message)
                (channel message) (Some (mid message)) false (content message) d1).
Proof.
  intros Hme Hown.
  rewrite (handle_message_run e message s me Hme Hown). cbv zeta.
  eexists. split; [reflexivity |]. unfold line_of.
  destruct (upsert_in_fails e); [| destruct (log_in_fails e)];
    cbn [global_message_memory set_memory set_db bot_user bot_personality sent requests db];
    destruct (100 <? _)%nat;
    cbn [global_message_memory set_memory set_db bot_user bot_personality sent requests db];
    repeat split; assumption.
Qed.

(** When every database call succeeds, the context of a response is read
    from the database and never from the memory: the transcript of the
    channel, which holds at least the triggering message just logged, is
    the context put in the instruction.  When no message stored for the
    channel is later than the triggering one, the last line of that context
    is the triggering message itself, with its markup. *)
Theorem context_comes_from_database e message s me c :
  bot_user s = Some me ->
  user_eq (author message) me = false ->
  mentions_bot message = true ->
  channel message = Some c ->
  upsert_in_fails e = false ->
  log_in_fails e = false ->
  fetch_fails e = false ->
  let u := author message in
  let logged :=
    BotDatabase.log_message (time_in e) (Some (uid u)) (name u) (guild message)
      (Some c) (Some (mid message)) false (content message)
      (BotDatabase.upsert_user (uid u) (name u) (user_discriminator u) (bot u)
         (time_in e) true true (db s)) in
  let transcript := BotDatabase.get_recent_messages_for_channel c 100 logged in
  let appended := global_message_memory s ++ [line_of message] in
  let n := length (if (100 <? length appended)%nat then drop 1 appended else appended) in
  transcript <> []
  /\ (Forall (fun r => BotDatabase.in_channel c r = true ->
                       BotDatabase.msg_ts r <= time_in e)
        (BotDatabase.messages (db s)) ->
      exists earlier, transcript = earlier ++ [line_of message])
  /\ exists req,
       requests (snd (_handle_message e message s)) = requests s ++ [req]
       /\ system_content req
          = instruction (select_tone n) (bot_personality s) (name u)
              (Py.join Py.LF transcript).
Proof.
  intros Hme Hown Hm Hc Hup Hlog Hfetch. cbv zeta.
  set (logged := BotDatabase.log_message _ _ _ _ _ _ _ _ _).
  assert (Hne : BotDatabase.get_recent_messages_for_channel c 100 logged <> []).
  { intros Hnil. apply (f_equal length) in Hnil.
    rewrite transcript_length in Hnil by lia.
    subst logged. unfold BotDatabase.log_message in Hnil.
    cbn [BotDatabase.messages] in Hnil. rewrite filter_in_channel_snoc in Hnil.
    match type of Hnil with
    | context [if BotDatabase.in_channel c ?r then _ else _] =>
        replace (BotDatabase.in_channel c r) with true in Hnil
          by (unfold BotDatabase.in_channel; cbn [BotDatabase.msg_channel_id];
              now rewrite Z.eqb_refl)
    end.
    rewrite length_app in Hnil. cbn [length] in Hnil. lia. }
  split; [exact Hne |]. split.
  { intros Hts. apply last_Some. subst logged.
    apply (last_logged_line (time_in e) (Some (uid (author message)))
             (name (author message)) (guild message) c (Some (mid message)) false
             (content message) 100); [lia | exact Hts]. }
  destruct (before_response e message s me Hme Hown)
    as (t & Hrun & Hu & Hp & _ & Hr & Hmem & Hdb).
  rewrite Hrun, Hm. rewrite Hup, Hlog, Hm, Hc in Hdb. cbv zeta in Hdb. fold logged in Hdb.
  assert (Hlines : context_lines e message t
                   = (Returned (BotDatabase.get_recent_messages_for_channel c 100 logged), t)).
  { unfold context_lines. rewrite Hc. unfold_M. rewrite Hfetch. unfold_M. rewrite Hdb.
    destruct (BotDatabase.get_recent_messages_for_channel c 100 logged); [congruence | reflexivity]. }
  rewrite (generate_response_run e message t c me _ Hc Hu Hlines).
  cbn [snd]. cbv zeta in Hmem. rewrite <- Hmem, <- Hp, <- Hr.
  eexists. split.
  - destruct (completion e) as [| [text|]];
      [| destruct (upsert_out_fails e); [| destruct (log_out_fails e)] |];
      reflexivity.
  - cbn [system_content]. apply build_prompt_instruction.
Qed.

Lemma context_comes_from_database_witness :
  exists req,
    requests (snd (_handle_message (world 10 (ApiReplies (Some "hi")))
                     (says alice "<@123> hello" true) (bot_with ["x"; "y"])))
    = [] ++ [req]
    /\ system_content req
       = instruction Standard "I am Big Floppa." "Alice" "Alice: <@123> hello".
Proof.
  apply (proj2 (proj2 (context_comes_from_database (world 10 (ApiReplies (Some "hi")))
                         (says alice "<@123> hello" true) (bot_with ["x"; "y"]) floppa 5
                         eq_refl eq_refl eq_refl eq_refl eq_refl eq_refl eq_refl))).
Defined.

(** Whoever writes a message is counted exactly once for it: when the
    upsert of the author succeeds, the author's row afterwards has the
    message counter one higher (starting from 0 for a new participant), the
    mention counter higher by one exactly when the bot was mentioned, the
    author's current name and the time of the message as last-seen, also
    when a reply was generated and the bot recorded itself. *)
Theorem author_is_counted_once e message s me :
  bot_user s = Some me ->
  user_eq (author message) me = false ->
  upsert_in_fails e = false ->
  let before := BotDatabase.users (db s) !! uid (author message) in
  exists r,
    BotDatabase.users (db (snd (_handle_message e message s))) !! uid (author message)
    = Some r
    /\ BotDatabase.message_count r = from_option BotDatabase.message_count 0 before + 1
    /\ BotDatabase.mention_count r
       = from_option BotDatabase.mention_count 0 before + Z.b2z (mentions_bot message)
    /\ BotDatabase.username r = name (author message)
    /\ BotDatabase.last_seen_at r = time_in e.
Proof.
  intros Hme Hown Hup. cbv zeta.
  assert (Hid : uid me <> uid (author message)).
  { unfold user_eq in Hown. apply Z.eqb_neq in Hown. congruence. }
  destruct (before_response e message s me Hme Hown)
    as (t & Hrun & Hu & _ & _ & _ & _ & Hdb).
  rewrite Hup in Hdb. cbv zeta in Hdb.
  assert (Ht : exists r,
             BotDatabase.users (db t) !! uid (author message) = Some r
             /\ BotDatabase.message_count r
                = from_option BotDatabase.message_count 0
                    (BotDatabase.users (db s) !! uid (author message)) + 1
             /\ BotDatabase.mention_count r
                = from_option BotDatabase.mention_count 0
                    (BotDatabase.users (db s) !! uid (author message))
                  + Z.b2z (mentions_bot message)
             /\ BotDatabase.username r = name (author message)
             /\ BotDatabase.last_seen_at r = time_in e).
  { rewrite Hdb.
    destruct (log_in_fails e); unfold BotDatabase.log_message, BotDatabase.upsert_user;
      cbn [BotDatabase.users]; rewrite lookup_insert_eq;
      (eexists; split; [reflexivity |]);
      destruct (BotDatabase.users (db s) !! uid (author message));
      cbn [from_option BotDatabase.message_count BotDatabase.mention_count
           BotDatabase.username BotDatabase.last_seen_at Z.b2z];
      repeat split; lia. }
  rewrite Hrun. destruct (mentions_bot message); [| exact Ht].
  destruct (channel message) as [c |] eqn:Hc.
  - destruct (context_lines_returns e message t) as [lines Hlines].
    rewrite (generate_response_run e message t c me lines Hc Hu Hlines). cbn [snd].
    destruct (completion e) as [| [text|]];
      [| destruct (upsert_out_fails e); [| destruct (log_out_fails e)] |];
      cbn [db set_db set_memory add_sent add_request];
      unfold BotDatabase.log_message, BotDatabase.upsert_user;
      cbn [BotDatabase.users]; rewrite ?lookup_insert_ne by exact Hid; exact Ht.
  - rewrite (generate_response_no_channel e message t me Hc Hu). exact Ht.
Qed.

Lemma author_is_counted_once_witness :
  exists r,
    BotDatabase.users
      (db (snd (_handle_message (world 10 (ApiReplies (Some "hi")))
                  (says alice "<@123> hello" true) (bot_with [])))) !! 7
    = Some r
    /\ BotDatabase.message_count r = 0 + 1
    /\ BotDatabase.mention_count r = 0 + 1
    /\ BotDatabase.username r = "Alice"
    /\ BotDatabase.last_seen_at r = 10.
Proof.
  apply (author_is_counted_once (world 10 (ApiReplies (Some "hi")))
           (says alice "<@123> hello" true) (bot_with []) floppa); reflexivity.
Defined.

(** A message that mentions the bot in a channel is answered with exactly
    one text and one call of the completion API, whatever fails: the text
    is the stripped reply when the API returned one and the apology
    otherwise, and the line appended to the memory is "Bot: " followed by
    that same text. *)
Theorem mention_gets_one_answer e message s me c :
  bot_user s = Some me ->
  user_eq (author message) me = false ->
  mentions_bot message = true ->
  channel message = Some c ->
  let s' := snd (_handle_message e message s) in
  let appended := global_message_memory s ++ [line_of message] in
  let answer :=
    match completion e with
    | ApiReplies (Some text) => Py.strip text
    | _ => "Sorry, there was an error processing your request."
    end in
  sent s' = sent s ++ [(c, answer)]
  /\ length (requests s') = S (length (requests s))
  /\ global_message_memory s'
     = (if (100 <? length appended)%nat then drop 1 appended else appended)
         ++ ["Bot: " +:+ answer].
Proof.
  intros Hme Hown Hm Hc. cbv zeta.
  destruct (before_response e message s me Hme Hown)
    as (t & Hrun & Hu & _ & Hs & Hr & Hmem & _).
  rewrite Hrun, Hm. cbv zeta in Hmem.
  destruct (context_lines_returns e message t) as [lines Hlines].
  rewrite (generate_response_run e message t c me lines Hc Hu Hlines). cbn [snd].
  rewrite <- Hmem, <- Hs, <- Hr.
  destruct (completion e) as [| [text|]];
    [| destruct (upsert_out_fails e); [| destruct (log_out_fails e)] |];
    cbn [sent requests global_message_memory set_db set_memory add_sent add_request];
    rewrite length_app; cbn [length]; repeat split; lia.
Qed.

Lemma mention_gets_one_answer_witness :
  sent (snd (_handle_message (world 10 (ApiReplies (Some "  hi  ")))
               (says alice "<@123> hello" true) (bot_with [])))
  = [] ++ [(5, Py.strip "  hi  ")].
Proof.
  apply (mention_gets_one_answer (world 10 (ApiReplies (Some "  hi  ")))
           (says alice "<@123> hello" true) (bot_with []) floppa 5); reflexivity.
Defined.

(** ** Tone over time *)

Lemma trimmed_length (l : list string) (x : string) :
  (length l
   <= length (if (100 <? length (l ++ [x]))%nat then drop 1 (l ++ [x]) else l ++ [x]))%nat.
Proof.
  destruct (100 <? length (l ++ [x]))%nat eqn:E.
  - apply Nat.ltb_lt in E. rewrite length_drop. rewrite length_app in *. cbn [length] in *. lia.
  - rewrite length_app. lia.
Qed.

(** The requests that one message adds, and the length of the memory they
    were built with. *)
Lemma request_step e message s :
  let s1 := snd (_handle_message e message s) in
  bot_personality s1 = bot_personality s
  /\ (length (global_message_memory s) <= length (global_message_memory s1))%nat
  /\ exists new,
       requests s1 = requests s ++ new
       /\ Forall (fun req => exists a ctx n,
                    system_content req
                    = instruction (select_tone n) (bot_personality s) a ctx
                    /\ (length (global_message_memory s) <= n)%nat) new.
Proof.
  cbv zeta.
  destruct (bot_user s) as [me |] eqn:Hme.
  2: { replace (_handle_message e message s) with (@Returned unit tt, s)
         by (unfold _handle_message, mbind, M_bind, get_state; now rewrite Hme).
       cbn [snd]. split; [reflexivity |]. split; [lia |].
       exists []. split; [now rewrite app_nil_r | constructor]. }
  destruct (user_eq (author message) me) eqn:Hown.
  { replace (_handle_message e message s) with (@Returned unit tt, s)
      by (unfold _handle_message, mbind, M_bind, get_state; now rewrite Hme, Hown).
    cbn [snd]. split; [reflexivity |]. split; [lia |].
    exists []. split; [now rewrite app_nil_r | constructor]. }
  destruct (before_response e message s me Hme Hown)
    as (t & Hrun & Hu & Hp & _ & Hr & Hmem & _).
  assert (Hlen : (length (global_message_memory s) <= length (global_message_memory t))%nat)
    by (rewrite Hmem; apply trimmed_length).
  rewrite Hrun. destruct (mentions_bot message).
  2: { cbn [snd]. split; [exact Hp |]. split; [exact Hlen |].
       exists []. split; [rewrite Hr; now rewrite app_nil_r | constructor]. }
  destruct (channel message) as [c |] eqn:Hc.
  - destruct (context_lines_returns e message t) as [lines Hlines].
    rewrite (generate_response_run e message t c me lines Hc Hu Hlines). cbn [snd].
    split; [| split].
    + destruct (completion e) as [| [text|]];
        [| destruct (upsert_out_fails e); [| destruct (log_out_fails e)] |]; exact Hp.
    + destruct (completion e) as [| [text|]];
        [| destruct (upsert_out_fails e); [| destruct (log_out_fails e)] |];
        cbn [global_message_memory set_db set_memory add_sent add_request];
        rewrite length_app; lia.
    + eexists [_]. split.
      * destruct (completion e) as [| [text|]];
          [| destruct (upsert_out_fails e); [| destruct (log_out_fails e)] |];
          cbn [requests set_db set_memory add_sent add_request]; rewrite Hr; reflexivity.
      * constructor; [| constructor]. cbn [system_content].
        rewrite build_prompt_instruction, Hp. eexists _, _, _. split; [reflexivity | exact Hlen].
  - rewrite (generate_response_no_channel e message t me Hc Hu). cbn [snd].
    cbn [bot_personality global_message_memory requests add_request].
    split; [exact Hp |]. split; [exact Hlen |].
    eexists [_]. split; [rewrite Hr; reflexivity |].
    constructor; [| constructor]. cbn [system_content].
    rewrite build_prompt_instruction, Hp. eexists _, _, _. split; [reflexivity | exact Hlen].
Qed.

(** Once the memory holds more than 40 lines the Standard instruction is
    never used again: every request made from then on, over any sequence
    of messages, carries the Refreshed or the Irritated instruction. *)
Theorem standard_tone_ends_after_40 events s :
  (40 < length (global_message_memory s))%nat ->
  exists new,
    requests (run events s) = requests s ++ new
    /\ Forall (fun req => exists t a ctx,
                 system_content req = instruction t (bot_personality s) a ctx
                 /\ t <> Standard) new.
Proof.
  revert s. induction events as [| [e message] events IH]; intros s Hlen; cbn [run].
  - exists []. split; [now rewrite app_nil_r | constructor].
  - destruct (request_step e message s) as (Hp & Hmono & new1 & Hr1 & Hall1).
    destruct (IH (snd (_handle_message e message s))) as (new2 & Hr2 & Hall2); [lia |].
    exists (new1 ++ new2). split; [rewrite Hr2, Hr1; now rewrite app_assoc |].
    apply Forall_app. split.
    + eapply Forall_impl; [exact Hall1 |]. intros req (a & ctx & n & Hreq & Hn).
      exists (select_tone n), a, ctx. split; [exact Hreq |].
      intros Hstd. apply select_tone_standard in Hstd. lia.
    + rewrite Hp in Hall2. exact Hall2.
Qed.

Lemma standard_tone_ends_after_40_witness :
  exists new,
    requests (run [(world 10 (ApiReplies (Some "hi")), says alice "<@123> hello" true)]
                (bot_with (replicate 41 "x")))
    = [] ++ new
    /\ Forall (fun req => exists t a ctx,
                 system_content req = instruction t "I am Big Floppa." a ctx
                 /\ t <> Standard) new.
Proof.
  apply (standard_tone_ends_after_40
           [(world 10 (ApiReplies (Some "hi")), says alice "<@123> hello" true)]
           (bot_with (replicate 41 "x"))).
  cbn. lia.
Defined.

(** ** Texts sent and calls made *)

Lemma answer_step e message s c :
  channel message = Some c ->
  let s1 := snd (_handle_message e message s) in
  (length (sent s1) + length (requests s) = length (requests s1) + length (sent s))%nat.
Proof.
  intros Hc. cbv zeta.
  destruct (bot_user s) as [me |] eqn:Hme.
  2: { replace (_handle_message e message s) with (@Returned unit tt, s)
         by (unfold _handle_message, mbind, M_bind, get_state; now rewrite Hme).
       cbn [snd]. lia. }
  destruct (user_eq (author message) me) eqn:Hown.
  { replace (_handle_message e message s) with (@Returned unit tt, s)
      by (unfold _handle_message, mbind, M_bind, get_state; now rewrite Hme, Hown).
    cbn [snd]. lia. }
  destruct (before_response e message s me Hme Hown)
    as (t & Hrun & Hu & _ & Hs & Hr & _ & _).
  rewrite Hrun. destruct (mentions_bot message); [| cbn [snd]; rewrite Hs, Hr; lia].
  destruct (context_lines_returns e message t) as [lines Hlines].
  rewrite (generate_response_run e message t c me lines Hc Hu Hlines). cbn [snd].
  destruct (completion e) as [| [text|]];
    [| destruct (upsert_out_fails e); [| destruct (log_out_fails e)] |];
    cbn [sent requests set_db set_memory add_sent add_request];
    rewrite !length_app, Hs, Hr; cbn [length]; lia.
Qed.

(** No call of the completion API goes unanswered and nothing is sent
    without one: over any sequence of messages that all have a channel,
    whatever the database and the API do, the number of texts sent equals
    the number of calls made. *)
Theorem one_text_per_call events s :
  Forall (fun ev => is_Some (channel (snd ev))) events ->
  (length (sent (run events s)) + length (requests s)
   = length (requests (run events s)) + length (sent s))%nat.
Proof.
  intros Hall. revert s.
  induction Hall as [| [e message] events [c Hc] _ IH]; intros s; cbn [run]; [lia |].
  cbn [snd] in Hc.
  pose proof (answer_step e message s c Hc) as Hstep. cbv zeta in Hstep.
  specialize (IH (snd (_handle_message e message s))). lia.
Qed.

Lemma one_text_per_call_witness :
  (length (sent (run [(world 10 ApiRaises, says alice "<@123> hello" true);
                      (world 11 (ApiReplies (Some "hi")), says alice "<@123> again" true)]
                   (bot_with []))) + 0
   = length (requests (run [(world 10 ApiRaises, says alice "<@123> hello" true);
                            (world 11 (ApiReplies (Some "hi")), says alice "<@123> again" true)]
                         (bot_with []))) + 0)%nat.
Proof.
  apply (one_text_per_call
           [(world 10 ApiRaises, says alice "<@123> hello" true);
            (world 11 (ApiReplies (Some "hi")), says alice "<@123> again" true)]
           (bot_with [])).
  repeat constructor; eexists; reflexivity.
Defined.

(** ** Texts without markup, and stripped texts *)

Lemma replace_from_absent (old new s : string) :
  Py.contains old s = false -> Py.replace_from old new 0 s = s.
Proof.
  induction s as [| x s IH]; intros H; [reflexivity |].
  cbn [Py.contains] in H. apply orb_false_iff in H as [Hpre Hrest].
  cbn [Py.replace_from]. rewrite Hpre. now rewrite IH.
Qed.

(** Nothing is deleted from a message text that contains neither form of
    the bot's mention markup, whatever else it contains: the text sent is
    the message text with the white space at both ends stripped. *)
Theorem text_without_markup_is_kept bot_id text :
  Py.contains ("<@" +:+ pretty bot_id +:+ ">") text = false ->
  Py.contains ("<@!" +:+ pretty bot_id +:+ ">") text = false ->
  clean_message bot_id text = Py.strip text.
Proof.
  intros H1 H2. unfold clean_message.
  change ("<@" +:+ pretty bot_id +:+ ">") with (mention bot_id) in *.
  change ("<@!" +:+ pretty bot_id +:+ ">") with (mention_bang bot_id) in *.
  assert (E1 : forall t, Py.replace t (mention bot_id) ""
                         = Py.replace_from (mention bot_id) "" 0 t)
    by (intros t; now rewrite mention_unfold).
  assert (E2 : forall t, Py.replace t (mention_bang bot_id) ""
                         = Py.replace_from (mention_bang bot_id) "" 0 t)
    by (intros t; now rewrite mention_bang_unfold).
  rewrite E1, (replace_from_absent _ _ _ H1), E2, (replace_from_absent _ _ _ H2).
  reflexivity.
Qed.

Lemma text_without_markup_is_kept_witness :
  clean_message 123 "  is 1 < 2 <@999> ?  " = Py.strip "  is 1 < 2 <@999> ?  ".
Proof. apply text_without_markup_is_kept; reflexivity. Defined.

Lemma rstrip_idempotent (s : string) : Py.rstrip (Py.rstrip s) = Py.rstrip s.
Proof.
  induction s as [| x s IH]; [reflexivity |].
  cbn [Py.rstrip]. destruct (Py.rstrip s) as [| y r] eqn:E.
  - destruct (Py.isspace x) eqn:Hx; [reflexivity |].
    cbn [Py.rstrip]. now rewrite Hx.
  - cbn [Py.rstrip]. cbn [Py.rstrip] in IH. rewrite IH. reflexivity.
Qed.

Lemma lstrip_head (s : string) :
  match Py.lstrip s with
  | EmptyString => True
  | String x _ => Py.isspace x = false
  end.
Proof.
  induction s as [| x s IH]; [exact I |].
  cbn [Py.lstrip]. destruct (Py.isspace x) eqn:Hx; [exact IH | exact Hx].
Qed.

Lemma rstrip_head (s : string) :
  match s with
  | EmptyString => True
  | String x _ => Py.isspace x = false
  end ->
  match Py.rstrip s with
  | EmptyString => True
  | String x _ => Py.isspace x = false
  end.
Proof.
  destruct s as [| x s]; [intros _; exact I |]. intros Hx.
  cbn [Py.rstrip]. destruct (Py.rstrip s); [rewrite Hx |]; exact Hx.
Qed.

Lemma lstrip_fixed (s : string) :
  match s with
  | EmptyString => True
  | String x _ => Py.isspace x = false
  end ->
  Py.lstrip s = s.
Proof.
  destruct s as [| x s]; [reflexivity |]. intros Hx. cbn [Py.lstrip]. now rewrite Hx.
Qed.

(** The text sent as user content is already stripped: it neither begins
    nor ends with white space, so stripping it again changes nothing. *)
Theorem clean_message_is_stripped bot_id text :
  Py.strip (clean_message bot_id text) = clean_message bot_id text
  /\ Py.lstrip (clean_message bot_id text) = clean_message bot_id text
  /\ Py.rstrip (clean_message bot_id text) = clean_message bot_id text.
Proof.
  unfold clean_message.
  set (t := Py.replace _ _ _).
  assert (Hl : Py.lstrip (Py.strip t) = Py.strip t).
  { unfold Py.strip. apply lstrip_fixed, rstrip_head, lstrip_head. }
  assert (Hr : Py.rstrip (Py.strip t) = Py.strip t).
  { unfold Py.strip. apply rstrip_idempotent. }
  split; [| split; assumption].
  unfold Py.strip at 1. now rewrite Hl, Hr.
Qed.

(** ** The reply in the database and in the memory *)

(** A reply that was generated and logged is what both stores end with:
    when the completion API returns a text, the two database calls for the
    reply succeed and the clock has not gone back behind a message stored
    for the channel, the transcript of the channel read next ends with
    "Bot: " followed by the stripped reply, whatever the bot's name is, and
    the memory ends with the same line. *)
Theorem reply_ends_both_stores e message s me c text :
  bot_user s = Some me ->
  user_eq (author message) me = false ->
  mentions_bot message = true ->
  channel message = Some c ->
  completion e = ApiReplies (Some text) ->
  upsert_out_fails e = false ->
  log_out_fails e = false ->
  time_in e <= time_out e ->
  Forall (fun r => BotDatabase.in_channel c r = true -> BotDatabase.msg_ts r <= time_out e)
    (BotDatabase.messages (db s)) ->
  let s' := snd (_handle_message e message s) in
  last (BotDatabase.get_recent_messages_for_channel c 100 (db s'))
  = Some ("Bot: " +:+ Py.strip text)
  /\ last (global_message_memory s') = Some ("Bot: " +:+ Py.strip text).
Proof.
  intros Hme Hown Hm Hc Hcomp Hup Hlog Hclock Hts. cbv zeta.
  destruct (before_response e message s me Hme Hown)
    as (t & Hrun & Hu & _ & _ & _ & _ & Hdb).
  assert (Ht : Forall (fun r => BotDatabase.in_channel c r = true ->
                                BotDatabase.msg_ts r <= time_out e)
                 (BotDatabase.messages (db t))).
  { rewrite Hdb. cbv zeta.
    destruct (upsert_in_fails e); [exact Hts |].
    destruct (log_in_fails e); [exact Hts |].
    unfold BotDatabase.log_message. cbn [BotDatabase.messages].
    apply Forall_app. split; [exact Hts |].
    constructor; [| constructor]. cbn [BotDatabase.msg_ts]. intros _. exact Hclock. }
  rewrite Hrun, Hm.
  destruct (context_lines_returns e message t) as [lines Hlines].
  rewrite (generate_response_run e message t c me lines Hc Hu Hlines).
  rewrite Hcomp, Hup, Hlog. cbn [snd db global_message_memory set_db set_memory add_sent add_request].
  split; [| now rewrite last_snoc].
  apply (last_logged_line (time_out e) (Some (uid me)) (name me) (guild message) c None true
           (Py.strip text) 100); [lia | exact Ht].
Qed.

Lemma reply_ends_both_stores_witness :
  last (BotDatabase.get_recent_messages_for_channel 5 100
          (db (snd (_handle_message (world 10 (ApiReplies (Some " hi ")))
                      (says alice "<@123> hello" true) (bot_with [])))))
  = Some ("Bot: " +:+ Py.strip " hi ")
  /\ last (global_message_memory
             (snd (_handle_message (world 10 (ApiReplies (Some " hi ")))
                     (says alice "<@123> hello" true) (bot_with []))))
     = Some ("Bot: " +:+ Py.strip " hi ").
Proof.
  apply (reply_ends_both_stores (world 10 (ApiReplies (Some " hi ")))
           (says alice "<@123> hello" true) (bot_with []) floppa 5 " hi ");
    first [reflexivity | cbn; lia | constructor].
Defined.

(** ** Order of the database writes *)

(** Recording two different participants gives the same database in either
    order, and recording a participant and logging a message give the same
    database in either order. *)
Theorem database_writes_commute d :
  (forall id1 nm1 disc1 b1 now1 im1 imn1 id2 nm2 disc2 b2 now2 im2 imn2,
      id1 <> id2 ->
      BotDatabase.upsert_user id1 nm1 disc1 b1 now1 im1 imn1
        (BotDatabase.upsert_user id2 nm2 disc2 b2 now2 im2 imn2 d)
      = BotDatabase.upsert_user id2 nm2 disc2 b2 now2 im2 imn2
          (BotDatabase.upsert_user id1 nm1 disc1 b1 now1 im1 imn1 d))
  /\ (forall id1 nm1 disc1 b1 now1 im1 imn1 ts user_id nm g c m b text,
        BotDatabase.upsert_user id1 nm1 disc1 b1 now1 im1 imn1
          (BotDatabase.log_message ts user_id nm g c m b text d)
        = BotDatabase.log_message ts user_id nm g c m b text
            (BotDatabase.upsert_user id1 nm1 disc1 b1 now1 im1 imn1 d)).
Proof.
  split; [| reflexivity].
  intros id1 nm1 disc1 b1 now1 im1 imn1 id2 nm2 disc2 b2 now2 im2 imn2 Hne.
  unfold BotDatabase.upsert_user. cbn [BotDatabase.users BotDatabase.messages].
  rewrite !lookup_insert_ne by congruence.
  f_equal. apply insert_insert_ne. congruence.
Qed.

Lemma database_writes_commute_witness :
  BotDatabase.upsert_user 7 "Alice" None false 10 true true
    (BotDatabase.upsert_user 123 "Floppa" None true 11 true false two_messages)
  = BotDatabase.upsert_user 123 "Floppa" None true 11 true false
      (BotDatabase.upsert_user 7 "Alice" None false 10 true true two_messages).
Proof.
  apply (proj1 (database_writes_commute two_messages)). lia.
Defined.

(** ** A failed upsert of the author *)

Lemma line_in_trimmed (l : list string) (x : string) :
  x ∈ (if (100 <? length (l ++ [x]))%nat then drop 1 (l ++ [x]) else l ++ [x]).
Proof.
  destruct (100 <? length (l ++ [x]))%nat eqn:E.
  - apply Nat.ltb_lt in E. rewrite length_app in E. cbn [length] in E.
    destruct l as [| y l]; [cbn [length] in E; lia |].
    cbn [app drop]. apply elem_of_app. right. now apply list_elem_of_singleton.
  - apply elem_of_app. right. now apply list_elem_of_singleton.
Qed.

(** The two database writes for an incoming message share one [try]: when
    the upsert of the author raises, the message is not logged either.  The
    author's row is left as it was and every row added to [messages] is a
    reply of the bot, while the line of the message is in the memory all
    the same. *)
Theorem failed_upsert_skips_message_log e message s me :
  bot_user s = Some me ->
  user_eq (author message) me = false ->
  upsert_in_fails e = true ->
  let s' := snd (_handle_message e message s) in
  BotDatabase.users (db s') !! uid (author message)
  = BotDatabase.users (db s) !! uid (author message)
  /\ (exists new,
        BotDatabase.messages (db s') = BotDatabase.messages (db s) ++ new
        /\ Forall (fun r => BotDatabase.msg_is_bot r = true) new)
  /\ line_of message ∈ global_message_memory s'.
Proof.
  intros Hme Hown Hup. cbv zeta.
  assert (Hid : uid me <> uid (author message)).
  { unfold user_eq in Hown. apply Z.eqb_neq in Hown. congruence. }
  destruct (before_response e message s me Hme Hown)
    as (t & Hrun & Hu & _ & _ & _ & Hmem & Hdb).
  rewrite Hup in Hdb. cbv zeta in Hmem.
  assert (Hline : line_of message ∈ global_message_memory t)
    by (rewrite Hmem; apply line_in_trimmed).
  rewrite Hrun. destruct (mentions_bot message).
  2: { cbn [snd]. rewrite Hdb. split; [reflexivity |]. split; [| exact Hline].
       exists []. split; [now rewrite app_nil_r | constructor]. }
  destruct (channel message) as [c |] eqn:Hc.
  - destruct (context_lines_returns e message t) as [lines Hlines].
    rewrite (generate_response_run e message t c me lines Hc Hu Hlines). cbn [snd].
    destruct (completion e) as [| [text|]];
      [| destruct (upsert_out_fails e); [| destruct (log_out_fails e)] |];
      cbn [db global_message_memory set_db set_memory add_sent add_request];
      rewrite Hdb;
      unfold BotDatabase.log_message, BotDatabase.upsert_user;
      cbn [BotDatabase.users BotDatabase.messages];
      rewrite ?lookup_insert_ne by exact Hid;
      (split; [reflexivity |]);
      (split; [| apply elem_of_app; left; exact Hline]).
    1, 2, 3, 5: exists []; split; [now rewrite app_nil_r | constructor].
    eexists [_]. split; [reflexivity |]. repeat constructor.
  - rewrite (generate_response_no_channel e message t me Hc Hu). cbn [snd].
    cbn [db global_message_memory add_request]. rewrite Hdb.
    split; [reflexivity |]. split; [| exact Hline].
    exists []. split; [now rewrite app_nil_r | constructor].
Qed.

Lemma failed_upsert_skips_message_log_witness :
  BotDatabase.messages
    (db (snd (_handle_message
                {| time_in := 10; upsert_in_fails := true; log_in_fails := false;
                   fetch_fails := false; openai_model := None; completion := ApiRaises;
                   time_out := 10; upsert_out_fails := false; log_out_fails := false |}
                (says alice "hello" false) (bot_with []))))
  = []
  /\ "Alice: hello"
     ∈ global_message_memory
         (snd (_handle_message
                 {| time_in := 10; upsert_in_fails := true; log_in_fails := false;
                    fetch_fails := false; openai_model := None; completion := ApiRaises;
                    time_out := 10; upsert_out_fails := false; log_out_fails := false |}
                 (says alice "hello" false) (bot_with []))).
Proof.
  destruct (failed_upsert_skips_message_log
              {| time_in := 10; upsert_in_fails := true; log_in_fails := false;
                 fetch_fails := false; openai_model := None; completion := ApiRaises;
                 time_out := 10; upsert_out_fails := false; log_out_fails := false |}
              (says alice "hello" false) (bot_with []) floppa eq_refl eq_refl eq_refl)
    as (_ & _ & Hline).
  split; [reflexivity | exact Hline].
Defined.
